(** * Session / identity orchestration of JGLsite: [src/contexts/AuthContext.tsx]

    A shallow embedding of the [AuthProvider] component: its four pieces of
    React state, the [demoUser] slot of [localStorage], the demo catalogue
    [demoUsers], and the operations [login], [signUp], [logout], the mount
    effect and the [onAuthStateChange] handler.

    Conventions.
    - A JavaScript string is a [string]; its bytes are read as UTF-8 text.
    - JSON data is a [JSValue]; a value as the component handles it is a
      [Value]: JSON data, or a member that an object literal inherits from
      [Object.prototype].
    - Everything the component does to the outside (state setters, storage,
      the Supabase wrappers of [lib/supabase], the clock) is an effect of the
      program monad [Prog]; [run] interprets a program against a world.
    - [console.log] / [console.error] calls write nothing the component reads
      back and are left out. *)

From Stdlib Require Import ZArith NArith String Ascii List Bool Lia.
From Stdlib Require Import DecimalString DecimalPos DecimalZ.
From stdpp Require Import gmap strings list.

Open Scope string_scope.
Open Scope list_scope.

Set Warnings "-register-all".

(** ** JSON values, [JSON.stringify] and [JSON.parse] *)

Module Json.

(** The values [JSON.parse] can produce.  A number is carried as the literal
    that denotes it (the component never computes with one); an object is its
    list of properties in insertion order (the reordering of integer-like
    keys that the language applies is not modelled: no key of a profile is
    one). *)
Inductive JSValue : Type :=
| JNull
| JBool (b : bool)
| JNum (lit : string)
| JStr (s : string)
| JArr (items : list JSValue)
| JObj (props : list (string * JSValue)).

Definition chars (s : string) : list ascii := list_ascii_of_string s.
Definition text (l : list ascii) : string := string_of_list_ascii l.

Definition code (c : ascii) : N := N_of_ascii c.
Definition chr (n : N) : ascii := ascii_of_N n.

(** The characters with a role in the grammar, by code point. *)
Definition dquote : ascii := chr 34.
Definition backslash : ascii := chr 92.

(** *** QuoteJSONString *)

Definition hex_digit (n : N) : ascii :=
  chr (if (n <? 10)%N then 48 + n else 87 + n).

Definition quote_char (c : ascii) : list ascii :=
  let n := code c in
  if (n =? 34)%N then [backslash; dquote]
  else if (n =? 92)%N then [backslash; backslash]
  else if (n =? 8)%N then chars "\b"
  else if (n =? 9)%N then chars "\t"
  else if (n =? 10)%N then chars "\n"
  else if (n =? 12)%N then chars "\f"
  else if (n =? 13)%N then chars "\r"
  else if (n <? 32)%N then
    chars "\u00" ++ [hex_digit (n / 16); hex_digit (n mod 16)]
  else [c].

Definition quote (s : string) : list ascii :=
  dquote :: flat_map quote_char (chars s) ++ [dquote].

(** *** JSON.stringify (no replacer, no indentation) *)

Fixpoint join (sep : list ascii) (parts : list (list ascii)) : list ascii :=
  match parts with
  | [] => []
  | [p] => p
  | p :: ps => p ++ sep ++ join sep ps
  end.

Fixpoint serialize (v : JSValue) : list ascii :=
  match v with
  | JNull => chars "null"
  | JBool true => chars "true"
  | JBool false => chars "false"
  | JNum lit => chars lit
  | JStr s => quote s
  | JArr items =>
      chars "[" ++ join (chars ",") (List.map serialize items) ++ chars "]"
  | JObj props =>
      chars "{"
      ++ join (chars ",")
           (List.map (fun kv => quote (fst kv) ++ chars ":" ++ serialize (snd kv))
              props)
      ++ chars "}"
  end.

Definition JSON_stringify (v : JSValue) : string := text (serialize v).

(** *** JSON.parse

    A recursive-descent reader of the ECMA-404 grammar.  [Bad] is the
    [SyntaxError] of the language; [Fuel] only says that the recursion bound
    given to the reader was too small (see [JSON_parse]). *)

Inductive Res (A : Type) : Type :=
| Ok (a : A) (rest : list ascii)
| Bad
| Fuel.
Arguments Ok {A} a rest.
Arguments Bad {A}.
Arguments Fuel {A}.

Definition is_ws (c : ascii) : bool :=
  let n := code c in
  (n =? 32)%N || (n =? 9)%N || (n =? 10)%N || (n =? 13)%N.

Fixpoint skip_ws (s : list ascii) : list ascii :=
  match s with
  | c :: r => if is_ws c then skip_ws r else s
  | [] => []
  end.

Definition is_digit (c : ascii) : bool :=
  let n := code c in (48 <=? n)%N && (n <=? 57)%N.

Definition hex_val (c : ascii) : option N :=
  let n := code c in
  if (48 <=? n)%N && (n <=? 57)%N then Some (n - 48)%N
  else if (65 <=? n)%N && (n <=? 70)%N then Some (n - 55)%N
  else if (97 <=? n)%N && (n <=? 102)%N then Some (n - 87)%N
  else None.

Definition hex4 (a b c d : ascii) : option N :=
  match hex_val a, hex_val b, hex_val c, hex_val d with
  | Some x, Some y, Some z, Some w => Some (((x * 16 + y) * 16 + z) * 16 + w)%N
  | _, _, _, _ => None
  end.

(** UTF-8 bytes of a code point (a lone surrogate is written the same way). *)
Definition utf8 (cp : N) : list ascii :=
  if (cp <? 128)%N then [chr cp]
  else if (cp <? 2048)%N then [chr (192 + cp / 64); chr (128 + cp mod 64)]
  else if (cp <? 65536)%N then
    [chr (224 + cp / 4096); chr (128 + (cp / 64) mod 64); chr (128 + cp mod 64)]
  else
    [chr (240 + cp / 262144); chr (128 + (cp / 4096) mod 64);
     chr (128 + (cp / 64) mod 64); chr (128 + cp mod 64)].

Definition is_high_surrogate (u : N) : bool := (55296 <=? u)%N && (u <=? 56319)%N.
Definition is_low_surrogate (u : N) : bool := (56320 <=? u)%N && (u <=? 57343)%N.

(** The low half of a surrogate pair, when the text continues with one. *)
Definition low_escape (r : list ascii) : option (N * list ascii) :=
  match r with
  | b :: u :: h1 :: h2 :: h3 :: h4 :: r' =>
      if Ascii.eqb b backslash && Ascii.eqb u "u" then
        match hex4 h1 h2 h3 h4 with
        | Some lo => if is_low_surrogate lo then Some (lo, r') else None
        | None => None
        end
      else None
  | _ => None
  end.

Definition cons_chars (l : list ascii) (res : option (list ascii * list ascii))
  : option (list ascii * list ascii) :=
  match res with
  | Some (body, rest) => Some (l ++ body, rest)
  | None => None
  end.

(** The characters of a string literal, read after its opening quote. *)
Fixpoint read_string (s : list ascii) : option (list ascii * list ascii) :=
  match s with
  | [] => None
  | c :: r =>
      if Ascii.eqb c dquote then Some ([], r)
      else if Ascii.eqb c backslash then
        match r with
        | [] => None
        | e :: r1 =>
            let n := code e in
            if (n =? 34)%N || (n =? 92)%N || (n =? 47)%N
            then cons_chars [e] (read_string r1)
            else if (n =? 98)%N then cons_chars [chr 8] (read_string r1)
            else if (n =? 102)%N then cons_chars [chr 12] (read_string r1)
            else if (n =? 110)%N then cons_chars [chr 10] (read_string r1)
            else if (n =? 114)%N then cons_chars [chr 13] (read_string r1)
            else if (n =? 116)%N then cons_chars [chr 9] (read_string r1)
            else if (n =? 117)%N then
              match r1 with
              | h1 :: h2 :: h3 :: h4 :: r2 =>
                  match hex4 h1 h2 h3 h4 with
                  | Some hi =>
                      match r2 with
                      | b :: u :: l1 :: l2 :: l3 :: l4 :: r3 =>
                          match (if is_high_surrogate hi then low_escape r2 else None) with
                          | Some (lo, _) =>
                              cons_chars
                                (utf8 (65536 + (hi - 55296) * 1024 + (lo - 56320)))
                                (read_string r3)
                          | None => cons_chars (utf8 hi) (read_string r2)
                          end
                      | _ => cons_chars (utf8 hi) (read_string r2)
                      end
                  | None => None
                  end
              | _ => None
              end
            else None
        end
      else if (code c <? 32)%N then None
      else cons_chars [c] (read_string r)
  end.

(** The literal of a number: an optional minus sign, then a single zero or
    a digit string without leading zero, then an optional fraction (a dot
    and at least one digit), then an optional exponent (e or E, an optional
    sign, at least one digit). *)
Fixpoint span_digits (s : list ascii) : list ascii * list ascii :=
  match s with
  | c :: r =>
      if is_digit c then let (ds, r') := span_digits r in (c :: ds, r')
      else ([], s)
  | [] => ([], [])
  end.

Definition read_int (s : list ascii) : option (list ascii * list ascii) :=
  match s with
  | c :: r =>
      if Ascii.eqb c "0" then Some ([c], r)
      else if is_digit c then let (ds, r') := span_digits r in Some (c :: ds, r')
      else None
  | [] => None
  end.

Definition read_frac (s : list ascii) : option (list ascii * list ascii) :=
  match s with
  | c :: r =>
      if Ascii.eqb c "." then
        match span_digits r with
        | ([], _) => None
        | (ds, r') => Some (c :: ds, r')
        end
      else Some ([], s)
  | [] => Some ([], [])
  end.

Definition read_exp (s : list ascii) : option (list ascii * list ascii) :=
  match s with
  | c :: r =>
      if Ascii.eqb c "e" || Ascii.eqb c "E" then
        let (sg, r1) :=
          match r with
          | d :: r0 => if Ascii.eqb d "+" || Ascii.eqb d "-" then ([d], r0) else ([], r)
          | [] => ([], [])
          end in
        match span_digits r1 with
        | ([], _) => None
        | (ds, r') => Some (c :: sg ++ ds, r')
        end
      else Some ([], s)
  | [] => Some ([], [])
  end.

Definition read_number (s : list ascii) : option (list ascii * list ascii) :=
  let (sg, s1) :=
    match s with
    | c :: r => if Ascii.eqb c "-" then ([c], r) else ([], s)
    | [] => ([], [])
    end in
  match read_int s1 with
  | Some (i, s2) =>
      match read_frac s2 with
      | Some (f, s3) =>
          match read_exp s3 with
          | Some (e, s4) => Some (sg ++ i ++ f ++ e, s4)
          | None => None
          end
      | None => None
      end
  | None => None
  end.

Fixpoint strip_prefix (p s : list ascii) : option (list ascii) :=
  match p, s with
  | [], _ => Some s
  | a :: p', b :: s' => if Ascii.eqb a b then strip_prefix p' s' else None
  | _ :: _, [] => None
  end.

(** A repeated key keeps its first position and takes the last value. *)
Fixpoint set_prop (k : string) (v : JSValue) (props : list (string * JSValue))
  : list (string * JSValue) :=
  match props with
  | [] => [(k, v)]
  | (k', v') :: ps =>
      if String.eqb k k' then (k', v) :: ps else (k', v') :: set_prop k v ps
  end.

Fixpoint read_value (n : nat) (s : list ascii) {struct n} : Res JSValue :=
  match n with
  | O => Fuel
  | S n' =>
      match skip_ws s with
      | [] => Bad
      | c :: r =>
          if Ascii.eqb c dquote then
            match read_string r with
            | Some (body, r') => Ok (JStr (text body)) r'
            | None => Bad
            end
          else if Ascii.eqb c "[" then
            match skip_ws r with
            | c' :: r' =>
                if Ascii.eqb c' "]" then Ok (JArr []) r'
                else read_elements n' (c' :: r') []
            | [] => Bad
            end
          else if Ascii.eqb c "{" then
            match skip_ws r with
            | c' :: r' =>
                if Ascii.eqb c' "}" then Ok (JObj []) r'
                else read_members n' (c' :: r') []
            | [] => Bad
            end
          else if Ascii.eqb c "-" || is_digit c then
            match read_number (c :: r) with
            | Some (lit, r') => Ok (JNum (text lit)) r'
            | None => Bad
            end
          else
            match strip_prefix (chars "null") (c :: r) with
            | Some r' => Ok JNull r'
            | None =>
                match strip_prefix (chars "true") (c :: r) with
                | Some r' => Ok (JBool true) r'
                | None =>
                    match strip_prefix (chars "false") (c :: r) with
                    | Some r' => Ok (JBool false) r'
                    | None => Bad
                    end
                end
            end
      end
  end

with read_elements (n : nat) (s : list ascii) (acc : list JSValue) {struct n}
  : Res JSValue :=
  match n with
  | O => Fuel
  | S n' =>
      match read_value n' s with
      | Ok v r =>
          match skip_ws r with
          | c :: r' =>
              if Ascii.eqb c "," then read_elements n' r' (acc ++ [v])
              else if Ascii.eqb c "]" then Ok (JArr (acc ++ [v])) r'
              else Bad
          | [] => Bad
          end
      | Bad => Bad
      | Fuel => Fuel
      end
  end

with read_members (n : nat) (s : list ascii) (acc : list (string * JSValue))
       {struct n} : Res JSValue :=
  match n with
  | O => Fuel
  | S n' =>
      match skip_ws s with
      | c :: r =>
          if Ascii.eqb c dquote then
            match read_string r with
            | Some (key, r1) =>
                match skip_ws r1 with
                | c1 :: r2 =>
                    if Ascii.eqb c1 ":" then
                      match read_value n' r2 with
                      | Ok v r3 =>
                          match skip_ws r3 with
                          | c3 :: r4 =>
                              if Ascii.eqb c3 ","
                              then read_members n' r4 (set_prop (text key) v acc)
                              else if Ascii.eqb c3 "}"
                              then Ok (JObj (set_prop (text key) v acc)) r4
                              else Bad
                          | [] => Bad
                          end
                      | Bad => Bad
                      | Fuel => Fuel
                      end
                    else Bad
                | [] => Bad
                end
            | None => Bad
            end
          else Bad
      | [] => Bad
      end
  end.

(** [JSON.parse text]: [None] stands for the thrown [SyntaxError].  The
    recursion bound is twice the length of the text plus two, which the
    reader never exhausts ([read_value_fuel] below). *)
Definition JSON_parse (s : string) : option JSValue :=
  let l := chars s in
  match read_value (2 * length l + 2) l with
  | Ok v r => match skip_ws r with [] => Some v | _ :: _ => None end
  | Bad => None
  | Fuel => None
  end.

(** The text of one member of an object, as [serialize] writes it. *)
Definition member_text (kv : string * JSValue) : list ascii :=
  quote (fst kv) ++ chars ":" ++ serialize (snd kv).

(** A value that is read back whatever follows it (strings, [null], the
    booleans). *)
Definition reads_back (v : JSValue) : Prop :=
  forall (m : nat) (c : ascii) (t : list ascii),
    read_value (S m) (serialize v ++ c :: t) = Ok v (c :: t).

End Json.
Import Json.

(** ** Data model *)

(** Modelled from the spec: the [role] column of [user_profiles] is typed in
    [types/database], which is not among the sources; the data model gives
    its four values (the component itself writes three of them). *)
Inductive Role : Type := admin | coach | gym_admin | gymnast.

Definition role_name (r : Role) : string :=
  match r with
  | admin => "admin"
  | coach => "coach"
  | gym_admin => "gym_admin"
  | gymnast => "gymnast"
  end.

(** [UserProfile]: a row of [user_profiles], with the fields that the object
    literals of the component spell out, and the optional joined [gym]. *)
Module Profile.
Record t : Type := Build {
  id : string;
  email : string;
  first_name : string;
  last_name : string;
  role : Role;
  gym_id : option string;
  phone : option string;
  date_of_birth : option string;
  is_active : bool;
  created_at : string;
  updated_at : string;
  gym : option JSValue
}.
End Profile.
Abbreviation UserProfile := Profile.t.

Definition nullable (o : option string) : JSValue :=
  match o with
  | Some s => JStr s
  | None => JNull
  end.

(** The object a profile is at run time, properties in the order in which the
    object literals of the component list them. *)
Definition toJS (p : UserProfile) : JSValue :=
  JObj ([ ("id", JStr (Profile.id p));
          ("email", JStr (Profile.email p));
          ("first_name", JStr (Profile.first_name p));
          ("last_name", JStr (Profile.last_name p));
          ("role", JStr (role_name (Profile.role p)));
          ("gym_id", nullable (Profile.gym_id p));
          ("phone", nullable (Profile.phone p));
          ("date_of_birth", nullable (Profile.date_of_birth p));
          ("is_active", JBool (Profile.is_active p));
          ("created_at", JStr (Profile.created_at p));
          ("updated_at", JStr (Profile.updated_at p)) ]
        ++ match Profile.gym p with
           | Some g => [("gym", g)]
           | None => []
           end).

(** *** Values that are no JSON data

    An object literal inherits from [Object.prototype], and a property
    access [o[k]] that finds no own property [k] goes on to the prototype.
    These are the property names of [Object.prototype] that the language
    defines (ECMA-262, sections 20.1.3 and B.2.2); a page that adds
    properties of its own to [Object.prototype] is not modelled. *)
Definition Object_prototype : list string :=
  [ "constructor"; "hasOwnProperty"; "isPrototypeOf"; "propertyIsEnumerable";
    "toLocaleString"; "toString"; "valueOf";
    "__proto__"; "__defineGetter__"; "__defineSetter__";
    "__lookupGetter__"; "__lookupSetter__" ].

(** A value as the component handles it: JSON data, or the member of
    [Object.prototype] of a given name.  All of the latter are built-in
    functions, except ["__proto__"], an accessor that reads as
    [Object.prototype] itself; each of them is truthy. *)
Inductive Value : Type :=
| Data (v : JSValue)
| Inherited (name : string).

Coercion Data : JSValue >-> Value.

(** [JSON.stringify(v)] for any value; [None] is [undefined], the answer for
    a function.  [Object.prototype] has no enumerable property of its own. *)
Definition stringify (v : Value) : option string :=
  match v with
  | Data d => Some (JSON_stringify d)
  | Inherited name => if String.eqb name "__proto__" then Some "{}" else None
  end.

(** The conversion to a string that [localStorage.setItem] applies to its
    second argument, here a [string | undefined]. *)
Definition to_string (o : option string) : string :=
  match o with
  | Some s => s
  | None => "undefined"
  end.

(** [User] of [@supabase/supabase-js]: the component reads its [id] only. *)
Record AuthUser : Type := { uid : string }.

Record Session : Type := { session_user : AuthUser }.

(** The [error] member of a Supabase reply. *)
Record ApiError : Type := { message : string }.

(** Modelled from the spec: [lib/supabase] is not among the sources.  Its
    wrappers answer with a [{ data, error }] object, as the component
    destructures it and as the interface of the design lists them; their
    promises resolve (a failure is the [error] member, not a rejection). *)
Module Reply.
Record t (D : Type) : Type := Build { data : D; error : option ApiError }.
Arguments Build {D} data error.
Arguments data {D} _.
Arguments error {D} _.
End Reply.
Abbreviation Reply := Reply.t.

(** The metadata handed to [supabaseSignUp], and the row handed to
    [createUserProfile]. *)
Record SignUpMeta : Type := {
  meta_email : string;
  meta_first_name : string;
  meta_last_name : string;
  meta_role : Role
}.

Record ProfileInsert : Type := {
  row_id : string;
  row_email : string;
  row_first_name : string;
  row_last_name : string;
  row_role : Role
}.

(** The four [useState] cells of [AuthProvider]; [JNull] is [null].  [user]
    is the value last handed to [setUser].  That is what React keeps in the
    cell, unless the value is a function, which React calls as an updater on
    the previous state: the functions among the [Inherited] members are the
    only ones the component can hand over, what React makes of them lies
    outside the component, and no statement below reads [user] after such a
    call. *)
Record AuthState : Type := {
  user : Value;
  authUser : option AuthUser;
  isLoading : bool;
  error : option string
}.

Definition initialState : AuthState :=
  {| user := JNull; authUser := None; isLoading := true; error := None |}.

(** ** Effects and programs *)

(** What a function of the component can throw: an [Error] object with its
    message, or some other value. *)
Inductive Thrown : Type :=
| JsError (msg : string)
| JsOther.

(** Effects on the component itself and on [localStorage]. *)
Inductive Loc : Type -> Type :=
| SetUser (v : Value) : Loc unit
| SetAuthUser (u : option AuthUser) : Loc unit
| SetIsLoading (b : bool) : Loc unit
| SetError (e : option string) : Loc unit
| GetItem (key : string) : Loc (option string)
| SetItem (key value : string) : Loc unit
| RemoveItem (key : string) : Loc unit
| OnAuthStateChange : Loc unit.

(** Calls that leave the component: the wrappers of [lib/supabase],
    [supabase.auth.getSession], and the clock. *)
Inductive Ext : Type -> Type :=
| SignIn (email password : string) : Ext (Reply (option Session))
| SupabaseSignUp (email password : string) (meta : SignUpMeta)
  : Ext (Reply (option AuthUser))
| SignOut : Ext (Reply unit)
| GetUserProfile (userId : string) : Ext (Reply (option UserProfile))
| CreateUserProfile (row : ProfileInsert) : Ext (Reply unit)
| GetSession : Ext (Reply (option Session))
| DateNow : Ext Z
| NewDateISO : Ext string.

Inductive Prog (A : Type) : Type :=
| Ret (a : A)
| Throw (t : Thrown)
| Do {X : Type} (l : Loc X) (k : X -> Prog A)
| Call {X : Type} (c : Ext X) (k : X -> Prog A).
Arguments Ret {A} a.
Arguments Throw {A} t.
Arguments Do {A X} l k.
Arguments Call {A X} c k.

Fixpoint bind {A B : Type} (p : Prog A) (f : A -> Prog B) : Prog B :=
  match p with
  | Ret a => f a
  | Throw t => Throw t
  | Do l k => Do l (fun x => bind (k x) f)
  | Call c k => Call c (fun x => bind (k x) f)
  end.

(** [try { p } catch (err) { h err }] *)
Fixpoint try_catch {A : Type} (p : Prog A) (h : Thrown -> Prog A) : Prog A :=
  match p with
  | Ret a => Ret a
  | Throw t => h t
  | Do l k => Do l (fun x => try_catch (k x) h)
  | Call c k => Call c (fun x => try_catch (k x) h)
  end.

(** [try { p } finally { f }] *)
Fixpoint finally {A : Type} (p : Prog A) (f : Prog unit) : Prog A :=
  match p with
  | Ret a => bind f (fun _ => Ret a)
  | Throw t => bind f (fun _ => Throw t)
  | Do l k => Do l (fun x => finally (k x) f)
  | Call c k => Call c (fun x => finally (k x) f)
  end.

Definition perform {X : Type} (l : Loc X) : Prog X := Do l Ret.
Definition await {X : Type} (c : Ext X) : Prog X := Call c Ret.

Declare Scope prog_scope.
Delimit Scope prog_scope with prog.
Bind Scope prog_scope with Prog.
Notation "x <- p ;; q" := (bind p (fun x => q))
  (at level 100, p at next level, right associativity) : prog_scope.
Notation "p ;; q" := (bind p (fun _ => q))
  (at level 100, right associativity) : prog_scope.
Open Scope prog_scope.

(** ** Worlds and the interpreter *)

(** One effect together with the answer it got. *)
Inductive Event : Type :=
| Did {X : Type} (l : Loc X) (x : X)
| Called {X : Type} (c : Ext X) (x : X).

(** Everything outside the component (identity provider, profile table,
    clock) is a state of some type [R] that answers the external calls. *)
Class Env (R : Type) : Type :=
  respond : forall X : Type, Ext X -> R -> X * R.
Arguments respond {R _ X} _ _.

Record World (R : Type) : Type := {
  state : AuthState;
  localStorage : gmap string string;
  subscribed : bool;
  outside : R
}.
Arguments state {R} _.
Arguments localStorage {R} _.
Arguments subscribed {R} _.
Arguments outside {R} _.

Inductive Outcome (A : Type) : Type :=
| Returned (a : A)
| Threw (t : Thrown).
Arguments Returned {A} a.
Arguments Threw {A} t.

(** What running a program gives: how it ended, the effects it performed in
    order, and the world it left. *)
Record Run (R A : Type) : Type := {
  outcome : Outcome A;
  events : list Event;
  final : World R
}.
Arguments outcome {R A} _.
Arguments events {R A} _.
Arguments final {R A} _.

Section Interpreter.
Context {R : Type} `{Env R}.

Definition with_state (f : AuthState -> AuthState) (w : World R) : World R :=
  {| state := f (state w); localStorage := localStorage w;
     subscribed := subscribed w; outside := outside w |}.

Definition with_storage (f : gmap string string -> gmap string string)
  (w : World R) : World R :=
  {| state := state w; localStorage := f (localStorage w);
     subscribed := subscribed w; outside := outside w |}.

Definition local {X : Type} (l : Loc X) (w : World R) : X * World R :=
  match l in Loc X return X * World R with
  | SetUser v =>
      (tt, with_state (fun s => {| user := v; authUser := authUser s;
                                   isLoading := isLoading s; error := error s |}) w)
  | SetAuthUser u =>
      (tt, with_state (fun s => {| user := user s; authUser := u;
                                   isLoading := isLoading s; error := error s |}) w)
  | SetIsLoading b =>
      (tt, with_state (fun s => {| user := user s; authUser := authUser s;
                                   isLoading := b; error := error s |}) w)
  | SetError e =>
      (tt, with_state (fun s => {| user := user s; authUser := authUser s;
                                   isLoading := isLoading s; error := e |}) w)
  | GetItem key => (localStorage w !! key, w)
  | SetItem key value => (tt, with_storage (insert key value) w)
  | RemoveItem key => (tt, with_storage (delete key) w)
  | OnAuthStateChange =>
      (tt, {| state := state w; localStorage := localStorage w;
              subscribed := true; outside := outside w |})
  end.

Definition external {X : Type} (c : Ext X) (w : World R) : X * World R :=
  (fst (respond c (outside w)),
   {| state := state w; localStorage := localStorage w;
      subscribed := subscribed w; outside := snd (respond c (outside w)) |}).

Definition after {A : Type} (e : Event) (r : Run R A) : Run R A :=
  {| outcome := outcome r; events := e :: events r; final := final r |}.

Fixpoint run {A : Type} (p : Prog A) (w : World R) : Run R A :=
  match p with
  | Ret a => {| outcome := Returned a; events := []; final := w |}
  | Throw t => {| outcome := Threw t; events := []; final := w |}
  | Do l k =>
      let x := fst (local l w) in
      after (Did l x) (run (k x) (snd (local l w)))
  | Call c k =>
      let x := fst (external c w) in
      after (Called c x) (run (k x) (snd (external c w)))
  end.

End Interpreter.

(** Running [p] and then [f] on its result: what [run] does on a [bind]. *)
Definition seq {R A B : Type} (r : Run R A) (f : A -> World R -> Run R B)
  : Run R B :=
  match outcome r with
  | Returned a =>
      {| outcome := outcome (f a (final r));
         events := events r ++ events (f a (final r));
         final := final (f a (final r)) |}
  | Threw t => {| outcome := Threw t; events := events r; final := final r |}
  end.

(** ** The component *)

(** What is fixed when the module is loaded: [isSupabaseConfigured] (exported
    by [lib/supabase]) and the results of the six
    [new Date().toISOString()] evaluated by the [demoUsers] literal, in
    source order. *)
Record Config : Type := {
  isSupabaseConfigured : bool;
  loadStamp : nat -> string
}.

(** [`${n}`] for an integral number [n]. *)
Definition decimal (n : Z) : string := NilZero.string_of_int (Z.to_int n).

(** [s.includes(sub)] *)
Fixpoint includes (s sub : string) : bool :=
  String.prefix sub s
  || match s with
     | EmptyString => false
     | String _ s' => includes s' sub
     end.

(** Truthiness of a [string | null | undefined]. *)
Definition truthy (o : option string) : bool :=
  match o with
  | Some s => negb (String.eqb s EmptyString)
  | None => false
  end.

Section Component.
Context (cfg : Config).

(** The three entries of the [demoUsers] literal. *)
Definition demoAdmin : UserProfile :=
  {| Profile.id := "demo-admin-id";
     Profile.email := "admin@demo.com";
     Profile.first_name := "League";
     Profile.last_name := "Administrator";
     Profile.role := admin;
     Profile.gym_id := None;
     Profile.phone := None;
     Profile.date_of_birth := None;
     Profile.is_active := true;
     Profile.created_at := loadStamp cfg 0;
     Profile.updated_at := loadStamp cfg 1;
     Profile.gym := None |}.

Definition demoCoach : UserProfile :=
  {| Profile.id := "demo-coach-id";
     Profile.email := "coach@demo.com";
     Profile.first_name := "Sarah";
     Profile.last_name := "Johnson";
     Profile.role := coach;
     Profile.gym_id := Some "demo-gym-id";
     Profile.phone := None;
     Profile.date_of_birth := None;
     Profile.is_active := true;
     Profile.created_at := loadStamp cfg 2;
     Profile.updated_at := loadStamp cfg 3;
     Profile.gym := None |}.

Definition demoGymnast : UserProfile :=
  {| Profile.id := "demo-gymnast-id";
     Profile.email := "gymnast@demo.com";
     Profile.first_name := "Emma";
     Profile.last_name := "Davis";
     Profile.role := gymnast;
     Profile.gym_id := Some "demo-gym-id";
     Profile.phone := None;
     Profile.date_of_birth := None;
     Profile.is_active := true;
     Profile.created_at := loadStamp cfg 4;
     Profile.updated_at := loadStamp cfg 5;
     Profile.gym := None |}.

(** [demoUsers]: the own properties of the object literal, one per e-mail
    address. *)
Definition demoUsers : gmap string UserProfile :=
  <[ "gymnast@demo.com" := demoGymnast ]>
    (<[ "coach@demo.com" := demoCoach ]>
       (<[ "admin@demo.com" := demoAdmin ]> ∅)).

(** [demoUsers[email]]: the own property of that name, else the member of
    that name inherited from [Object.prototype], else [undefined] (here
    [None]).  Every value it gives is an object or a function, so the tests
    [demoUsers[email]] and [if (demoUser)] of [login] succeed exactly when
    there is one. *)
Definition demoUsers_at (email : string) : option Value :=
  match demoUsers !! email with
  | Some demoUser => Some (Data (toJS demoUser))
  | None =>
      if existsb (String.eqb email) Object_prototype
      then Some (Inherited email)
      else None
  end.

(** [JSON.parse] as a step of a program: it returns or throws. *)
Definition parse (s : string) : Prog JSValue :=
  match JSON_parse s with
  | Some v => Ret v
  | None => Throw (JsError "SyntaxError")
  end.

(** [err instanceof Error ? err.message : fallback] *)
Definition message_or (err : Thrown) (fallback : string) : string :=
  match err with
  | JsError msg => msg
  | JsOther => fallback
  end.

(** [err instanceof Error ? err : new Error(fallback)] *)
Definition error_or (err : Thrown) (fallback : string) : Thrown :=
  match err with
  | JsError msg => JsError msg
  | JsOther => JsError fallback
  end.

Definition loadUserProfile (userId : string) : Prog unit :=
  finally
    (try_catch
       (r <- await (GetUserProfile userId);;
        match Reply.error r with
        | Some _ => perform (SetError (Some "Failed to load user profile"))
        | None =>
            match Reply.data r with
            | Some data => perform (SetUser (toJS data))
            | None => Ret tt
            end
        end)
       (fun _ => perform (SetError (Some "Failed to load user profile"))))
    (perform (SetIsLoading false)).

(** The callback given to [supabase.auth.onAuthStateChange]. *)
Definition onAuthStateChange (event : string) (session : option Session)
  : Prog unit :=
  match session with
  | Some s =>
      perform (SetAuthUser (Some (session_user s)));;
      loadUserProfile (uid (session_user s))
  | None =>
      perform (SetAuthUser None);;
      perform (SetUser JNull);;
      perform (SetIsLoading false)
  end.

(** The part of the mount effect after the demo check: the subscription is
    registered before the [getSession] promise settles, so its callback runs
    with the handler in place. *)
Definition restoreSession : Prog unit :=
  perform OnAuthStateChange;;
  r <- await GetSession;;
  match Reply.data r with
  | Some s =>
      perform (SetAuthUser (Some (session_user s)));;
      loadUserProfile (uid (session_user s))
  | None => perform (SetIsLoading false)
  end.

(** The body of [useEffect(..., [])].  The [try] block answers [true] when it
    ended in the early [return]. *)
Definition mount : Prog unit :=
  demoUser <- perform (GetItem "demoUser");;
  restored <-
    match demoUser with
    | Some text =>
        if truthy demoUser then
          try_catch
            (parsedUser <- parse text;;
             perform (SetUser parsedUser);;
             perform (SetIsLoading false);;
             Ret true)
            (fun _ => perform (RemoveItem "demoUser");; Ret false)
        else Ret false
    | None => Ret false
    end;;
  if (restored : bool) then Ret tt else restoreSession.

(** The demo branch shared by the two places of [login] that enter it, for
    the value [demoUser] that [demoUsers[email]] gave. *)
Definition enterDemo (demoUser : Value) : Prog unit :=
  perform (SetUser demoUser);;
  perform (SetItem "demoUser" (to_string (stringify demoUser)));;
  perform (SetIsLoading false).

(** Lines 196 to 223 of [login]: the [try] around [signIn] and its [catch]. *)
Definition loginWithProvider (email password : string) : Prog unit :=
  try_catch
    (r <- await (SignIn email password);;
     match Reply.error r with
     | Some error =>
         match (if includes (message error) "Email not confirmed"
                   && String.eqb password "demo123"
                then demoUsers_at email else None) with
         | Some demoUser => enterDemo demoUser
         | None => Throw (JsError (message error))
         end
     | None => Ret tt
     end)
    (fun err =>
       perform (SetError (Some (message_or err "Login failed")));;
       perform (SetIsLoading false);;
       Throw (error_or err "Login failed")).

Definition login (email password : string) : Prog unit :=
  perform (SetIsLoading true);;
  perform (SetError None);;
  match (if String.eqb password "demo123" then demoUsers_at email else None) with
  | Some demoUser => enterDemo demoUser
  | None =>
      if negb (isSupabaseConfigured cfg) then
        let msg := "Supabase credentials are not configured." in
        perform (SetError (Some msg));;
        perform (SetIsLoading false);;
        Throw (JsError msg)
      else loginWithProvider email password
  end.

(** Lines 255 to 302 of [signUp]: the three provider steps and the [catch]. *)
Definition signUpWithProvider (email password firstName lastName : string)
  : Prog unit :=
  try_catch
    (r <- await (SupabaseSignUp email password
                   {| meta_email := email; meta_first_name := firstName;
                      meta_last_name := lastName; meta_role := gymnast |});;
     match Reply.error r with
     | Some error => Throw (JsError (message error))
     | None =>
         let userId := option_map uid (Reply.data r) in
         match userId with
         | Some userId' =>
             if truthy userId then
               r2 <- await (SignIn email password);;
               match Reply.error r2 with
               | Some loginError => Throw (JsError (message loginError))
               | None =>
                   r3 <- await (CreateUserProfile
                                  {| row_id := userId'; row_email := email;
                                     row_first_name := firstName;
                                     row_last_name := lastName;
                                     row_role := gymnast |});;
                   match Reply.error r3 with
                   | Some profileError => Throw (JsError (message profileError))
                   | None => Ret tt
                   end
               end
             else Throw (JsError "Sign up succeeded but no user ID returned")
         | None => Throw (JsError "Sign up succeeded but no user ID returned")
         end
     end)
    (fun err =>
       perform (SetError (Some (message_or err "Sign up failed")));;
       perform (SetIsLoading false);;
       Throw (error_or err "Sign up failed")).

Definition signUp (email password firstName lastName : string) : Prog unit :=
  perform (SetIsLoading true);;
  perform (SetError None);;
  if negb (isSupabaseConfigured cfg) then
    now <- await DateNow;;
    created <- await NewDateISO;;
    updated <- await NewDateISO;;
    let demoUser :=
      {| Profile.id := "demo-" +:+ decimal now;
         Profile.email := email;
         Profile.first_name := firstName;
         Profile.last_name := lastName;
         Profile.role := gymnast;
         Profile.gym_id := None;
         Profile.phone := None;
         Profile.date_of_birth := None;
         Profile.is_active := true;
         Profile.created_at := created;
         Profile.updated_at := updated;
         Profile.gym := None |} in
    perform (SetUser (toJS demoUser));;
    perform (SetItem "demoUser" (JSON_stringify (toJS demoUser)));;
    perform (SetIsLoading false)
  else signUpWithProvider email password firstName lastName.

Definition logout : Prog unit :=
  perform (SetError None);;
  perform (RemoveItem "demoUser");;
  r <- await SignOut;;
  match Reply.error r with
  | Some error => perform (SetError (Some (message error)))
  | None => Ret tt
  end;;
  perform (SetUser JNull);;
  perform (SetAuthUser None).

End Component.

(** The metadata and the row that [signUp] builds from its arguments. *)
Definition signUp_meta (email firstName lastName : string) : SignUpMeta :=
  {| meta_email := email; meta_first_name := firstName;
     meta_last_name := lastName; meta_role := gymnast |}.

Definition signUp_row (userId email firstName lastName : string) : ProfileInsert :=
  {| row_id := userId; row_email := email; row_first_name := firstName;
     row_last_name := lastName; row_role := gymnast |}.

(** The profile [signUp] synthesises when no provider is configured. *)
Definition synthesized (now : Z) (created updated email firstName lastName : string)
  : UserProfile :=
  {| Profile.id := "demo-" +:+ decimal now;
     Profile.email := email;
     Profile.first_name := firstName;
     Profile.last_name := lastName;
     Profile.role := gymnast;
     Profile.gym_id := None;
     Profile.phone := None;
     Profile.date_of_birth := None;
     Profile.is_active := true;
     Profile.created_at := created;
     Profile.updated_at := updated;
     Profile.gym := None |}.

(** What [login] has done when it reaches the provider. *)
Definition loginPrelude {R : Type} (w : World R) : World R :=
  {| state := {| user := user (state w); authUser := authUser (state w);
                 isLoading := true; error := None |};
     localStorage := localStorage w;
     subscribed := subscribed w;
     outside := outside w |}.

(** The events of a run that reach the identity provider or the profile
    table (reading the clock is not one of them). *)
Definition is_network (e : Event) : bool :=
  match e with
  | Did _ _ => false
  | Called c _ =>
      match c with
      | DateNow => false
      | NewDateISO => false
      | _ => true
      end
  end.

Definition network (evs : list Event) : list Event := List.filter is_network evs.

(** ** Observable session states

    The component has no state type of its own; these are the readings of
    the tuple [(user, authUser, isLoading, error)] and of the slot that the
    state names of the design stand for. *)

Definition Unauthenticated (s : AuthState) : Prop :=
  user s = JNull /\ authUser s = None.

(** The profile on display is the one held by the persisted slot. *)
Definition DemoActive {R : Type} (w : World R) : Prop :=
  user (state w) <> JNull
  /\ exists text, stringify (user (state w)) = Some text
                  /\ localStorage w !! "demoUser" = Some text.

(** ** An in-memory identity provider and profile table

    A small stand-in for the services behind [lib/supabase], used to run the
    component on concrete scenarios: accounts with a password, one current
    session, the rows of [user_profiles] guarded by the insert policy
    ("own row only") and the primary key, and a clock that reads out a given
    list of instants. *)
Module InMemory.

Record Account : Type := {
  account_id : string;
  account_email : string;
  account_password : string;
  confirmed : bool
}.

Record Backend : Type := {
  accounts : list Account;
  session : option Session;
  rows : list UserProfile;
  nows : list Z;
  stamps : list string
}.

Definition ok {D : Type} (d : D) : Reply D := Reply.Build d None.
Definition failed {D : Type} (d : D) (msg : string) : Reply D :=
  Reply.Build d (Some {| message := msg |}).

Definition account_of (email : string) (b : Backend) : option Account :=
  List.find (fun a => String.eqb (account_email a) email) (accounts b).

Definition row_of (userId : string) (b : Backend) : option UserProfile :=
  List.find (fun p => String.eqb (Profile.id p) userId) (rows b).

Definition with_session (s : option Session) (b : Backend) : Backend :=
  {| accounts := accounts b; session := s; rows := rows b;
     nows := nows b; stamps := stamps b |}.

Definition signIn (email password : string) (b : Backend)
  : Reply (option Session) * Backend :=
  match account_of email b with
  | Some a =>
      if negb (String.eqb (account_password a) password)
      then (failed None "Invalid login credentials", b)
      else if negb (confirmed a) then (failed None "Email not confirmed", b)
      else
        let s := {| session_user := {| uid := account_id a |} |} in
        (ok (Some s), with_session (Some s) b)
  | None => (failed None "Invalid login credentials", b)
  end.

Definition register (email password : string) (b : Backend)
  : Reply (option AuthUser) * Backend :=
  match account_of email b with
  | Some _ => (failed None "User already registered", b)
  | None =>
      let a := {| account_id := "user-" +:+ decimal (Z.of_nat (length (accounts b)));
                  account_email := email;
                  account_password := password;
                  confirmed := true |} in
      (ok (Some {| uid := account_id a |}),
       {| accounts := accounts b ++ [a]; session := session b; rows := rows b;
          nows := nows b; stamps := stamps b |})
  end.

Definition insertRow (row : ProfileInsert) (b : Backend) : Reply unit * Backend :=
  match session b with
  | Some s =>
      if negb (String.eqb (uid (session_user s)) (row_id row))
      then (failed tt "new row violates row-level security policy", b)
      else
        match row_of (row_id row) b with
        | Some _ => (failed tt "duplicate key value violates unique constraint", b)
        | None =>
            (ok tt,
             {| accounts := accounts b; session := session b;
                rows := rows b ++
                  [ {| Profile.id := row_id row;
                       Profile.email := row_email row;
                       Profile.first_name := row_first_name row;
                       Profile.last_name := row_last_name row;
                       Profile.role := row_role row;
                       Profile.gym_id := None;
                       Profile.phone := None;
                       Profile.date_of_birth := None;
                       Profile.is_active := true;
                       Profile.created_at := hd EmptyString (stamps b);
                       Profile.updated_at := hd EmptyString (stamps b);
                       Profile.gym := None |} ];
                nows := nows b; stamps := stamps b |})
        end
  | None => (failed tt "new row violates row-level security policy", b)
  end.

Definition answer (X : Type) (c : Ext X) (b : Backend) : X * Backend :=
  match c in Ext X return X * Backend with
  | SignIn email password => signIn email password b
  | SupabaseSignUp email password _ => register email password b
  | SignOut => (ok tt, with_session None b)
  | GetUserProfile userId =>
      match row_of userId b with
      | Some p => (ok (Some p), b)
      | None => (failed None "no rows returned", b)
      end
  | CreateUserProfile row => insertRow row b
  | GetSession => (ok (session b), b)
  | DateNow =>
      (hd 0%Z (nows b),
       {| accounts := accounts b; session := session b; rows := rows b;
          nows := tl (nows b); stamps := stamps b |})
  | NewDateISO =>
      (hd EmptyString (stamps b),
       {| accounts := accounts b; session := session b; rows := rows b;
          nows := nows b; stamps := tl (stamps b) |})
  end.

#[export] Instance backend_env : Env Backend := answer.

Definition has_account (email : string) (b : Backend) : Prop :=
  exists a, account_of email b = Some a.

End InMemory.

(** Two module configurations used in the concrete scenarios. *)
Definition configured : Config :=
  {| isSupabaseConfigured := true; loadStamp := fun _ => "2025-07-30T00:00:00.000Z" |}.

Definition unconfigured : Config :=
  {| isSupabaseConfigured := false; loadStamp := fun _ => "2025-07-30T00:00:00.000Z" |}.

(** A freshly mounted component over some storage and outside world. *)
Definition fresh {R : Type} (ls : gmap string string) (r : R) : World R :=
  {| state := initialState; localStorage := ls; subscribed := false; outside := r |}.


(** ** Reading a profile back from a value *)

(** The own property [k] of [v], for [v] an object of JSON data. *)
Definition prop (k : string) (v : Value) : option JSValue :=
  match v with
  | Data (JObj props) => snd <$> List.find (fun kv => String.eqb (fst kv) k) props
  | _ => None
  end.

Definition role_of (s : string) : option Role :=
  if String.eqb s "admin" then Some admin
  else if String.eqb s "coach" then Some coach
  else if String.eqb s "gym_admin" then Some gym_admin
  else if String.eqb s "gymnast" then Some gymnast
  else None.

Definition as_string (o : option JSValue) : option string :=
  match o with
  | Some (JStr s) => Some s
  | _ => None
  end.

Definition as_nullable (o : option JSValue) : option (option string) :=
  match o with
  | Some (JStr s) => Some (Some s)
  | Some JNull => Some None
  | _ => None
  end.

Definition as_bool (o : option JSValue) : option bool :=
  match o with
  | Some (JBool b) => Some b
  | _ => None
  end.

(** Modelled from the spec: the row type of [user_profiles] lives in
    [types/database], which is not part of the sources; the data model of the
    specification gives its fields.  A value is a well-formed profile when it
    is an object with these fields at these types. *)
Definition fromJS (v : Value) : option UserProfile :=
  id ← as_string (prop "id" v);
  email ← as_string (prop "email" v);
  first_name ← as_string (prop "first_name" v);
  last_name ← as_string (prop "last_name" v);
  role ← as_string (prop "role" v) ≫= role_of;
  gym_id ← as_nullable (prop "gym_id" v);
  phone ← as_nullable (prop "phone" v);
  date_of_birth ← as_nullable (prop "date_of_birth" v);
  is_active ← as_bool (prop "is_active" v);
  created_at ← as_string (prop "created_at" v);
  updated_at ← as_string (prop "updated_at" v);
  Some {| Profile.id := id; Profile.email := email;
          Profile.first_name := first_name; Profile.last_name := last_name;
          Profile.role := role; Profile.gym_id := gym_id;
          Profile.phone := phone; Profile.date_of_birth := date_of_birth;
          Profile.is_active := is_active; Profile.created_at := created_at;
          Profile.updated_at := updated_at; Profile.gym := prop "gym" v |}.

(** The profile a slot content deserialises to, if any. *)
Definition readProfile (content : string) : option UserProfile :=
  v ← JSON_parse content; fromJS (Data v).

(** ** The component as a transition system

    What can happen to a mounted component: a consumer calls one of the three
    operations, or the provider delivers a change notification, which reaches
    the component only when the handler has been registered. *)
Inductive Action : Type :=
| Login (email password : string)
| SignUp (email password firstName lastName : string)
| Logout
| Notify (event : string) (session : option Session).

Definition program (cfg : Config) (a : Action) : Prog unit :=
  match a with
  | Login email password => login cfg email password
  | SignUp email password firstName lastName =>
      signUp cfg email password firstName lastName
  | Logout => logout
  | Notify event session => onAuthStateChange event session
  end.

Definition enabled {R : Type} (a : Action) (w : World R) : bool :=
  match a with
  | Notify _ _ => subscribed w
  | _ => true
  end.

Inductive reachable {R : Type} `{Env R} (cfg : Config) : World R -> Prop :=
| reach_mount (ls : gmap string string) (r : R) :
    reachable cfg (final (run mount (fresh ls r)))
| reach_step (w : World R) (a : Action) :
    reachable cfg w -> enabled a w = true ->
    reachable cfg (final (run (program cfg a) w)).

(** The world after a list of actions, each applied if it is enabled. *)
Fixpoint play {R : Type} `{Env R} (cfg : Config) (acts : list Action) (w : World R)
  : World R :=
  match acts with
  | [] => w
  | a :: rest =>
      play cfg rest (if enabled a w then final (run (program cfg a) w) else w)
  end.
(** The actions that are not a [login] or a [signUp]. *)
Definition passive (a : Action) : bool :=
  match a with
  | Logout => true
  | Notify _ _ => true
  | _ => false
  end.

(** ** The data hooks ([useEvents], [useGyms], [useMembers], [useGymnasts],
    [useChallenges], [useRegistrations], [useNotifications])

    Each hook keeps a list of rows, a [loading] flag and an [error] message.
    The row types live in [types/database], which is not among the sources:
    the hooks are modelled over any row type [T] with its [id] column.  A
    query built with the Supabase client is the record of what was asked; a
    database is a function from queries to answers. *)
Module Hooks.

Record Query : Type := {
  from : string;
  select : string;
  eq : list (string * JSValue);
  order : string;
  ascending : bool;
  limit : option nat
}.

(** What the [try] block gets from an awaited query: the [data] of a reply
    without error, or the value that reaches the [catch] (the [error] member
    thrown by [if (error) throw error], or the reason of a rejection). *)
Inductive Answer (T : Type) : Type :=
| Rows (data : option (list T))
| Raised (err : Thrown).
Arguments Rows {T} data.
Arguments Raised {T} err.

Record State (T : Type) : Type := {
  rows : list T;
  loading : bool;
  error : option string
}.
Arguments rows {T} _.
Arguments loading {T} _.
Arguments error {T} _.

(** The state of a hook before its first fetch. *)
Definition initial {T : Type} : State T :=
  {| rows := []; loading := true; error := None |}.

Section Lists.
Context {T : Type} (id : T -> string).

Definition setRows (l : list T) (s : State T) : State T :=
  {| rows := l; loading := loading s; error := error s |}.
Definition setLoading (b : bool) (s : State T) : State T :=
  {| rows := rows s; loading := b; error := error s |}.
Definition setError (e : option string) (s : State T) : State T :=
  {| rows := rows s; loading := loading s; error := e |}.

(** The body shared by the seven fetch functions:
    [setLoading(true); try { ...; if (error) throw error; set(data || []) }
     catch (err) { setError(err instanceof Error ? err.message : fallback) }
     finally { setLoading(false) }]. *)
Definition fetchWith (fallback : string) (q : Query) (db : Query -> Answer T)
  (s : State T) : State T :=
  let s1 := setLoading true s in
  let s2 :=
    match db q with
    | Rows data => setRows (match data with Some l => l | None => [] end) s1
    | Raised err =>
        setError (Some (match err with JsError msg => msg | JsOther => fallback end)) s1
    end in
  setLoading false s2.

Definition eventsQuery : Query :=
  {| from := "events";
     select := "*, host_gym:gyms(*), creator:user_profiles(*)";
     eq := []; order := "event_date"; ascending := true; limit := None |}.

Definition fetchEvents := fetchWith "Failed to fetch events" eventsQuery.

Definition gymsQuery : Query :=
  {| from := "gyms"; select := "*"; eq := [];
     order := "created_at"; ascending := false; limit := None |}.

Definition fetchGyms := fetchWith "Failed to fetch gyms" gymsQuery.

Definition membersQuery : Query :=
  {| from := "user_profiles"; select := "*, gym:gyms(*)"; eq := [];
     order := "created_at"; ascending := false; limit := None |}.

Definition fetchMembers := fetchWith "Failed to fetch members" membersQuery.

Definition gymnastsQuery (gym_id : string) : Query :=
  {| from := "gymnasts"; select := "*, user:user_profiles(*)";
     eq := [("gym_id", JStr gym_id)];
     order := "created_at"; ascending := false; limit := None |}.

(** [fetchGymnasts], given [user?.gym_id]: it returns at once when that is
    falsy. *)
Definition fetchGymnasts (gym_id : option string) (db : Query -> Answer T)
  (s : State T) : State T :=
  match gym_id with
  | Some g =>
      if truthy gym_id
      then fetchWith "Failed to fetch gymnasts" (gymnastsQuery g) db s
      else s
  | None => s
  end.

Definition challengesQuery : Query :=
  {| from := "challenges"; select := "*"; eq := [("is_active", JBool true)];
     order := "created_at"; ascending := false; limit := None |}.

Definition fetchChallenges := fetchWith "Failed to fetch challenges" challengesQuery.

Definition registrationsQuery (eventId : option string) : Query :=
  {| from := "registrations";
     select := "*, event:events(*), gymnast:gymnasts(*, user:user_profiles(*))";
     eq := match eventId with
           | Some e => if truthy eventId then [("event_id", JStr e)] else []
           | None => []
           end;
     order := "registered_at"; ascending := false; limit := None |}.

Definition fetchRegistrations (eventId : option string) :=
  fetchWith "Failed to fetch registrations" (registrationsQuery eventId).

Definition notificationsQuery (user_id : string) : Query :=
  {| from := "notifications"; select := "*"; eq := [("user_id", JStr user_id)];
     order := "created_at"; ascending := false; limit := Some 10 |}.

(** The effect of [useNotifications], given [user?.id]: without a user it
    only clears [loading]. *)
Definition fetchNotifications (user_id : option string) (db : Query -> Answer T)
  (s : State T) : State T :=
  match user_id with
  | Some u =>
      if truthy user_id
      then fetchWith "Failed to fetch notifications" (notificationsQuery u) db s
      else setLoading false s
  | None => setLoading false s
  end.

(** [addEvent], [addGym], [addMember]: [prev => [...prev, row]]. *)
Definition addRow (row : T) (prev : list T) : list T := prev ++ [row].

(** [updateEvent], [updateGym], [updateMember]:
    [prev => prev.map(e => (e.id === row.id ? row : e))]. *)
Definition updateRow (row : T) (prev : list T) : list T :=
  List.map (fun e => if String.eqb (id e) (id row) then row else e) prev.

(** [removeEvent], [removeGym], [removeMember]:
    [prev => prev.filter(e => e.id !== id)]. *)
Definition removeRow (i : string) (prev : list T) : list T :=
  List.filter (fun e => negb (String.eqb (id e) i)) prev.

(** The realtime handler of [useNotifications]:
    [prev => [payload.new, ...prev]]. *)
Definition onInsert (new : T) (prev : list T) : list T := new :: prev.

End Lists.

(** A row of [notifications]: the columns the hook names, and the rest. *)
Record Notification : Type := {
  notification_id : string;
  user_id : string;
  is_read : bool;
  created_at : string;
  other : list (string * JSValue)
}.

(** [{ ...n, is_read: true }] *)
Definition read (n : Notification) : Notification :=
  {| notification_id := notification_id n; user_id := user_id n;
     is_read := true; created_at := created_at n; other := other n |}.

(** [markAsRead(id)], given how the update went: [None] when the reply had no
    error; otherwise the [catch] only writes to the console. *)
Definition markAsRead (i : string) (failure : option Thrown)
  (prev : list Notification) : list Notification :=
  match failure with
  | None =>
      List.map (fun n => if String.eqb (notification_id n) i then read n else n) prev
  | Some _ => prev
  end.

End Hooks.

(** ** The row-level policies of the [secure_role_policies] migration

    [user_profiles] is a table keyed by [id]; a comparison with [NULL] is
    [NULL] (here [None]), and a policy lets a row through only when its
    [USING] expression is true. *)
Module Policies.

Record Row : Type := { role : Role; gym_id : option string }.

Definition sql_and (a b : option bool) : option bool :=
  match a, b with
  | Some false, _ => Some false
  | _, Some false => Some false
  | Some true, Some true => Some true
  | _, _ => None
  end.

Definition sql_eq (a b : option string) : option bool :=
  match a, b with
  | Some x, Some y => Some (String.eqb x y)
  | _, _ => None
  end.

(** The one row selected by [WHERE id = uid], if any ([uid] may be [NULL]). *)
Definition row_of (uid : option string) (t : gmap string Row) : option Row :=
  match uid with
  | Some u => t !! u
  | None => None
  end.

(** [SELECT role = 'admin' FROM user_profiles WHERE id = uid] *)
Definition is_admin (uid : option string) (t : gmap string Row) : option bool :=
  match row_of uid t with
  | Some r => Some (match role r with admin => true | _ => false end)
  | None => None
  end.

(** [SELECT role IN ('coach','gym_admin') AND gym_id = gid
     FROM user_profiles WHERE id = uid] *)
Definition can_view_gymnast (uid gid : option string) (t : gmap string Row)
  : option bool :=
  match row_of uid t with
  | Some r =>
      sql_and (Some (match role r with coach | gym_admin => true | _ => false end))
              (sql_eq (gym_id r) gid)
  | None => None
  end.

Definition passes (expr : option bool) : bool :=
  match expr with
  | Some true => true
  | _ => false
  end.

(** "Admins can view all profiles": [USING (is_admin(auth.uid()))]. *)
Definition admins_can_view (viewer : option string) (t : gmap string Row)
  (target : Row) : bool :=
  passes (is_admin viewer t).

(** "Coaches can view gymnasts in their gym":
    [USING (can_view_gymnast(auth.uid(), gym_id))]. *)
Definition coaches_can_view (viewer : option string) (t : gmap string Row)
  (target : Row) : bool :=
  passes (can_view_gymnast viewer (gym_id target) t).

End Policies.

(** ** Concrete scenarios *)

Import InMemory.

Definition empty_backend : Backend :=
  {| accounts := []; session := None; rows := []; nows := []; stamps := [] |}.

Definition member : UserProfile :=
  {| Profile.id := "user-0"; Profile.email := "real@x.com";
     Profile.first_name := "Rea"; Profile.last_name := "Lee";
     Profile.role := gymnast; Profile.gym_id := None; Profile.phone := None;
     Profile.date_of_birth := None; Profile.is_active := true;
     Profile.created_at := "2025-07-01T00:00:00.000Z";
     Profile.updated_at := "2025-07-01T00:00:00.000Z"; Profile.gym := None |}.

(** The profile table already holds a row under the id the next account
    will get. *)
Definition stale_row_backend : Backend :=
  {| accounts := []; session := None;
     rows := [ member ];
     nows := []; stamps := [] |}.

(** One confirmed account with its profile row, nobody signed in. *)
Definition member_backend : Backend :=
  {| accounts := [ {| account_id := "user-0"; account_email := "real@x.com";
                      account_password := "secret"; confirmed := true |} ];
     session := None; rows := [ member ]; nows := []; stamps := [] |}.

(** The demo coach also has a provider account, not yet confirmed. *)
Definition unconfirmed_backend : Backend :=
  {| accounts := [ {| account_id := "user-0"; account_email := "coach@demo.com";
                      account_password := "demo123"; confirmed := false |} ];
     session := None; rows := []; nows := []; stamps := [] |}.

(** A member whose password happens to be the demo password, and whose
    address is not confirmed yet. *)
Definition pending_backend : Backend :=
  {| accounts := [ {| account_id := "user-0"; account_email := "real@x.com";
                      account_password := "demo123"; confirmed := false |} ];
     session := None; rows := []; nows := []; stamps := [] |}.

(** A provider that answers every call with neither data nor error (an
    account creation held back for confirmation looks like this to
    [signUp]). *)
Inductive Quiet : Type := quiet.

Definition quiet_answer (X : Type) (c : Ext X) (q : Quiet) : X * Quiet :=
  match c in Ext X return X * Quiet with
  | SignIn _ _ => (Reply.Build None None, q)
  | SupabaseSignUp _ _ _ => (Reply.Build None None, q)
  | SignOut => (Reply.Build tt None, q)
  | GetUserProfile _ => (Reply.Build None None, q)
  | CreateUserProfile _ => (Reply.Build tt None, q)
  | GetSession => (Reply.Build None None, q)
  | DateNow => (0%Z, q)
  | NewDateISO => (EmptyString, q)
  end.

#[export] Instance quiet_env : Env Quiet := quiet_answer.

(** A name with a quotation mark, a backslash and a line feed in it. *)
Definition awkward_name : string :=
  String dquote (String backslash (String (chr 10) "Ann")).

(** Two clock readings within the same millisecond. *)
Definition same_instant_backend : Backend :=
  {| accounts := []; session := None; rows := [];
     nows := [ 1753833600000%Z; 1753833600000%Z ];
     stamps := [ "2025-07-30T00:00:00.000Z"; "2025-07-30T00:00:00.000Z";
                 "2025-07-30T00:00:00.000Z"; "2025-07-30T00:00:00.000Z" ] |}.

(** The world of the scenario against C3: mount with an empty slot, sign in
    with the provider, receive the notification, then log in as demo coach. *)
Definition mixed_world : World Backend :=
  play configured
    [ Login "real@x.com" "secret";
      Notify "SIGNED_IN" (Some {| session_user := {| uid := "user-0" |} |});
      Login "coach@demo.com" "demo123" ]
    (final (run mount (fresh ∅ member_backend))).

(** ** Proof tools *)

Ltac exec :=
  cbn [run bind try_catch finally perform await local external after
       with_state with_storage state localStorage subscribed outside
       outcome events final
       user authUser isLoading error fst snd negb message_or error_or
       to_string stringify].

(** For a goal [run p w = r /\ rest]: prove the equation with [tac], then
    go on with [rest] rewritten by it. *)
Ltac run_first tac :=
  match goal with
  | |- (?l = ?r) /\ _ =>
      let Hrun := fresh "Hrun" in
      assert (Hrun : l = r); [ tac | rewrite !Hrun; split; [ reflexivity | ] ]
  end.

Ltac branch :=
  match goal with
  | |- context [match ?x with _ => _ end] =>
      match type of x with
      | sumbool _ _ => fail 1
      | _ => destruct x
      end
  | |- context [if ?x then _ else _] => destruct x
  end.

Ltac frames :=
  exec; repeat (branch; exec); try (split; reflexivity).

(** * Properties of the JSON reader *)
Lemma skip_ws_length (s : list ascii) : length (skip_ws s) <= length s.
Proof.
  induction s as [| c r IH]; cbn [skip_ws]; [lia |].
  destruct (is_ws c); cbn [length] in *; lia.
Qed.

Lemma cons_chars_some (l : list ascii) res (b r : list ascii) :
  cons_chars l res = Some (b, r) -> exists b', res = Some (b', r).
Proof.
  destruct res as [[b' r'] |]; cbn; [| discriminate].
  intros Heq. injection Heq as _ ->. eauto.
Qed.

Lemma read_string_length (n : nat) :
  forall s b r, length s <= n -> read_string s = Some (b, r) -> length r < length s.
Proof.
  induction n as [| n IH]; intros s b r Hn Hread.
  - destruct s; [discriminate Hread | cbn in Hn; lia].
  - destruct s as [| c r0]; [discriminate Hread |].
    cbn [read_string] in Hread. cbn [length] in *.
    assert (Hrec : forall l t, length t <= n ->
                     cons_chars l (read_string t) = Some (b, r) -> length r < length t).
    { intros l t Ht Hc. apply cons_chars_some in Hc as [b' Hc]. eapply IH; eauto. }
    destruct (Ascii.eqb c dquote).
    { injection Hread as _ <-. lia. }
    destruct (Ascii.eqb c backslash).
    2:{ destruct (code c <? 32)%N; [discriminate Hread |].
        apply Hrec in Hread; lia. }
    destruct r0 as [| e r1]; [discriminate Hread |]. cbn [length] in *.
    repeat match type of Hread with
           | (if ?x then cons_chars _ (read_string r1) else _) = _ =>
               destruct x; [apply Hrec in Hread; lia |]
           end.
    destruct (code e =? 117)%N; [| discriminate Hread].
    destruct r1 as [| h1 [| h2 [| h3 [| h4 r2]]]]; try discriminate Hread.
    cbn [length] in *.
    destruct (hex4 h1 h2 h3 h4) as [hi |]; [| discriminate Hread].
    destruct r2 as [| b0 [| u0 [| l1 [| l2 [| l3 [| l4 r3]]]]]];
      try (apply Hrec in Hread; cbn [length] in *; lia).
    destruct (if is_high_surrogate hi then _ else None) as [[lo ?] |];
      apply Hrec in Hread; cbn [length] in *; lia.
Qed.

Lemma span_digits_length (s : list ascii) :
  length (snd (span_digits s)) <= length s.
Proof.
  induction s as [| c r IH]; cbn [span_digits]; [cbn; lia |].
  destruct (is_digit c); [| cbn; lia].
  destruct (span_digits r) as [ds r']. cbn [snd length] in *. lia.
Qed.

Lemma read_number_length (c : ascii) (s lit r : list ascii) :
  read_number (c :: s) = Some (lit, r) -> length r <= length s.
Proof.
  unfold read_number.
  assert (Hint : forall t i t', read_int t = Some (i, t') -> length t' < length t).
  { intros [| d t] i t'; cbn [read_int]; [discriminate |].
    destruct (Ascii.eqb d "0").
    - intros Heq. injection Heq as _ <-. cbn. lia.
    - destruct (is_digit d); [| discriminate].
      pose proof (span_digits_length t) as Hs.
      destruct (span_digits t) as [ds t'']. intros Heq. injection Heq as _ <-.
      cbn [snd length] in *. lia. }
  assert (Hfrac : forall t f t', read_frac t = Some (f, t') -> length t' <= length t).
  { intros [| d t] f t'; cbn [read_frac].
    - intros Heq. injection Heq as _ <-. lia.
    - destruct (Ascii.eqb d ".").
      + pose proof (span_digits_length t) as Hs.
        destruct (span_digits t) as [[| d0 ds] t'']; [discriminate |].
        intros Heq. injection Heq as _ <-. cbn [snd length] in *. lia.
      + intros Heq. injection Heq as _ <-. lia. }
  assert (Hexp : forall t f t', read_exp t = Some (f, t') -> length t' <= length t).
  { intros [| d t] f t'; cbn [read_exp].
    - intros Heq. injection Heq as _ <-. lia.
    - destruct (Ascii.eqb d "e" || Ascii.eqb d "E").
      + destruct t as [| d1 t1].
        * cbn. discriminate.
        * destruct (Ascii.eqb d1 "+" || Ascii.eqb d1 "-").
          -- pose proof (span_digits_length t1) as Hs.
             destruct (span_digits t1) as [[| d0 ds] t'']; [discriminate |].
             intros Heq. injection Heq as _ <-. cbn [snd length] in *. lia.
          -- pose proof (span_digits_length (d1 :: t1)) as Hs.
             destruct (span_digits (d1 :: t1)) as [[| d0 ds] t'']; [discriminate |].
             intros Heq. injection Heq as _ <-. cbn [snd length] in *. lia.
      + intros Heq. injection Heq as _ <-. lia. }
  destruct (Ascii.eqb c "-").
  - destruct (read_int s) as [[i s2] |] eqn:Hi; [| discriminate].
    destruct (read_frac s2) as [[f s3] |] eqn:Hf; [| discriminate].
    destruct (read_exp s3) as [[e s4] |] eqn:He; [| discriminate].
    intros Heq. injection Heq as _ <-.
    apply Hint in Hi. apply Hfrac in Hf. apply Hexp in He. lia.
  - destruct (read_int (c :: s)) as [[i s2] |] eqn:Hi; [| discriminate].
    destruct (read_frac s2) as [[f s3] |] eqn:Hf; [| discriminate].
    destruct (read_exp s3) as [[e s4] |] eqn:He; [| discriminate].
    intros Heq. injection Heq as _ <-.
    apply Hint in Hi. apply Hfrac in Hf. apply Hexp in He. cbn [length] in *. lia.
Qed.

Lemma strip_prefix_length (p s r : list ascii) :
  strip_prefix p s = Some r -> length r + length p = length s.
Proof.
  revert s. induction p as [| a p IH]; intros s; cbn [strip_prefix].
  - intros Heq. injection Heq as <-. cbn. lia.
  - destruct s as [| b s']; [discriminate |].
    destruct (Ascii.eqb a b); [| discriminate].
    intros Heq. apply IH in Heq. cbn [length]. lia.
Qed.


Ltac ok_inv H := injection H as _ <-.

(** What is left after a value is strictly shorter than the text read. *)
Lemma read_rest (n : nat) :
  (forall s v r, read_value n s = Ok v r -> length r < length s)
  /\ (forall s acc v r, read_elements n s acc = Ok v r -> length r < length s)
  /\ (forall s acc v r, read_members n s acc = Ok v r -> length r < length s).
Proof.
  induction n as [| n [IHv [IHe IHm]]].
  - repeat split; intros; discriminate.
  - split; [| split].
    + intros s v r. cbn [read_value].
      pose proof (skip_ws_length s) as Hs.
      destruct (skip_ws s) as [| c t]; [discriminate |]. cbn [length] in Hs.
      destruct (Ascii.eqb c dquote).
      { destruct (read_string t) as [[body t'] |] eqn:Hstr; [| discriminate].
        intros Heq. ok_inv Heq.
        apply (read_string_length (length t)) in Hstr; lia. }
      destruct (Ascii.eqb c "[").
      { pose proof (skip_ws_length t) as Ht.
        destruct (skip_ws t) as [| c' t']; [discriminate |]. cbn [length] in Ht.
        destruct (Ascii.eqb c' "]").
        - intros Heq. ok_inv Heq. lia.
        - intros Heq. apply IHe in Heq. cbn [length] in Heq. lia. }
      destruct (Ascii.eqb c "{").
      { pose proof (skip_ws_length t) as Ht.
        destruct (skip_ws t) as [| c' t']; [discriminate |]. cbn [length] in Ht.
        destruct (Ascii.eqb c' "}").
        - intros Heq. ok_inv Heq. lia.
        - intros Heq. apply IHm in Heq. cbn [length] in Heq. lia. }
      destruct (Ascii.eqb c "-" || is_digit c).
      { destruct (read_number (c :: t)) as [[lit t'] |] eqn:Hnum; [| discriminate].
        intros Heq. ok_inv Heq. apply read_number_length in Hnum. lia. }
      destruct (strip_prefix (chars "null") (c :: t)) as [t' |] eqn:H1.
      { intros Heq. ok_inv Heq. apply strip_prefix_length in H1.
        cbn [length chars list_ascii_of_string] in H1. lia. }
      destruct (strip_prefix (chars "true") (c :: t)) as [t' |] eqn:H2.
      { intros Heq. ok_inv Heq. apply strip_prefix_length in H2.
        cbn [length chars list_ascii_of_string] in H2. lia. }
      destruct (strip_prefix (chars "false") (c :: t)) as [t' |] eqn:H3;
        [| discriminate].
      intros Heq. ok_inv Heq. apply strip_prefix_length in H3.
      cbn [length chars list_ascii_of_string] in H3. lia.
    + intros s acc v r. cbn [read_elements].
      destruct (read_value n s) as [v0 t | |] eqn:Hv; try discriminate.
      apply IHv in Hv.
      pose proof (skip_ws_length t) as Ht.
      destruct (skip_ws t) as [| c t']; [discriminate |]. cbn [length] in Ht.
      destruct (Ascii.eqb c ",").
      { intros Heq. apply IHe in Heq. lia. }
      destruct (Ascii.eqb c "]"); [| discriminate].
      intros Heq. ok_inv Heq. lia.
    + intros s acc v r. cbn [read_members].
      pose proof (skip_ws_length s) as Hs.
      destruct (skip_ws s) as [| c t]; [discriminate |]. cbn [length] in Hs.
      destruct (Ascii.eqb c dquote); [| discriminate].
      destruct (read_string t) as [[key t1] |] eqn:Hstr; [| discriminate].
      apply (read_string_length (length t)) in Hstr; [| lia].
      pose proof (skip_ws_length t1) as Ht1.
      destruct (skip_ws t1) as [| c1 t2]; [discriminate |]. cbn [length] in Ht1.
      destruct (Ascii.eqb c1 ":"); [| discriminate].
      destruct (read_value n t2) as [v0 t3 | |] eqn:Hv; try discriminate.
      apply IHv in Hv.
      pose proof (skip_ws_length t3) as Ht3.
      destruct (skip_ws t3) as [| c3 t4]; [discriminate |]. cbn [length] in Ht3.
      destruct (Ascii.eqb c3 ",").
      { intros Heq. apply IHm in Heq. lia. }
      destruct (Ascii.eqb c3 "}"); [| discriminate].
      intros Heq. ok_inv Heq. lia.
Qed.

(** The recursion bound is enough: two units per character of the text, and
    one more for a value or two more for a list of elements or members. *)
Lemma read_fuel (n : nat) :
  (forall s, 2 * length s + 1 <= n -> read_value n s <> Fuel)
  /\ (forall s acc, 2 * length s + 2 <= n -> read_elements n s acc <> Fuel)
  /\ (forall s acc, 2 * length s + 2 <= n -> read_members n s acc <> Fuel).
Proof.
  induction n as [| n [IHv [IHe IHm]]].
  - repeat split; intros; lia.
  - split; [| split].
    + intros s Hn. cbn [read_value].
      pose proof (skip_ws_length s) as Hs.
      destruct (skip_ws s) as [| c t]; [discriminate |]. cbn [length] in Hs.
      destruct (Ascii.eqb c dquote).
      { destruct (read_string t) as [[body t'] |]; discriminate. }
      destruct (Ascii.eqb c "[").
      { pose proof (skip_ws_length t) as Ht.
        destruct (skip_ws t) as [| c' t']; [discriminate |]. cbn [length] in Ht.
        destruct (Ascii.eqb c' "]"); [discriminate |].
        apply IHe. cbn [length]. lia. }
      destruct (Ascii.eqb c "{").
      { pose proof (skip_ws_length t) as Ht.
        destruct (skip_ws t) as [| c' t']; [discriminate |]. cbn [length] in Ht.
        destruct (Ascii.eqb c' "}"); [discriminate |].
        apply IHm. cbn [length]. lia. }
      destruct (Ascii.eqb c "-" || is_digit c).
      { destruct (read_number (c :: t)) as [[lit t'] |]; discriminate. }
      destruct (strip_prefix (chars "null") (c :: t)); [discriminate |].
      destruct (strip_prefix (chars "true") (c :: t)); [discriminate |].
      destruct (strip_prefix (chars "false") (c :: t)); discriminate.
    + intros s acc Hn. cbn [read_elements].
      pose proof (IHv s) as Hv'.
      destruct (read_value n s) as [v0 t | |] eqn:Hv;
        [| discriminate | exfalso; apply Hv'; [lia | reflexivity]].
      apply (proj1 (read_rest n)) in Hv.
      pose proof (skip_ws_length t) as Ht.
      destruct (skip_ws t) as [| c t']; [discriminate |]. cbn [length] in Ht.
      destruct (Ascii.eqb c ",").
      { apply IHe. lia. }
      destruct (Ascii.eqb c "]"); discriminate.
    + intros s acc Hn. cbn [read_members].
      pose proof (skip_ws_length s) as Hs.
      destruct (skip_ws s) as [| c t]; [discriminate |]. cbn [length] in Hs.
      destruct (Ascii.eqb c dquote); [| discriminate].
      destruct (read_string t) as [[key t1] |] eqn:Hstr; [| discriminate].
      apply (read_string_length (length t)) in Hstr; [| lia].
      pose proof (skip_ws_length t1) as Ht1.
      destruct (skip_ws t1) as [| c1 t2]; [discriminate |]. cbn [length] in Ht1.
      destruct (Ascii.eqb c1 ":"); [| discriminate].
      pose proof (IHv t2) as Hv'.
      destruct (read_value n t2) as [v0 t3 | |] eqn:Hv;
        [| discriminate | exfalso; apply Hv'; [lia | reflexivity]].
      apply (proj1 (read_rest n)) in Hv.
      pose proof (skip_ws_length t3) as Ht3.
      destruct (skip_ws t3) as [| c3 t4]; [discriminate |]. cbn [length] in Ht3.
      destruct (Ascii.eqb c3 ",").
      { apply IHm. lia. }
      destruct (Ascii.eqb c3 "}"); discriminate.
Qed.

(** [JSON_parse] never fails for want of recursion depth: its [None] is a
    syntax error found by the reader. *)
Lemma read_value_fuel (s : string) :
  read_value (2 * length (chars s) + 2) (chars s) <> Fuel.
Proof. apply (proj1 (read_fuel _)). lia. Qed.

(** More recursion depth does not change a value that was read. *)
Lemma read_more (n : nat) :
  (forall m s v r, n <= m -> read_value n s = Ok v r -> read_value m s = Ok v r)
  /\ (forall m s acc v r, n <= m ->
        read_elements n s acc = Ok v r -> read_elements m s acc = Ok v r)
  /\ (forall m s acc v r, n <= m ->
        read_members n s acc = Ok v r -> read_members m s acc = Ok v r).
Proof.
  induction n as [| n [IHv [IHe IHm]]].
  - repeat split; intros; discriminate.
  - split; [| split].
    + intros [| m] s v r Hle; [lia |]. cbn [read_value].
      destruct (skip_ws s) as [| c t]; [discriminate |].
      destruct (Ascii.eqb c dquote); [exact (fun H => H) |].
      destruct (Ascii.eqb c "[").
      { destruct (skip_ws t) as [| c' t']; [discriminate |].
        destruct (Ascii.eqb c' "]"); [exact (fun H => H) |].
        apply IHe. lia. }
      destruct (Ascii.eqb c "{").
      { destruct (skip_ws t) as [| c' t']; [discriminate |].
        destruct (Ascii.eqb c' "}"); [exact (fun H => H) |].
        apply IHm. lia. }
      exact (fun H => H).
    + intros [| m] s acc v r Hle; [lia |]. cbn [read_elements].
      destruct (read_value n s) as [v0 t | |] eqn:Hv; try discriminate.
      rewrite (IHv m s v0 t) by (lia || assumption).
      destruct (skip_ws t) as [| c t']; [discriminate |].
      destruct (Ascii.eqb c ","); [apply IHe; lia |].
      exact (fun H => H).
    + intros [| m] s acc v r Hle; [lia |]. cbn [read_members].
      destruct (skip_ws s) as [| c t]; [discriminate |].
      destruct (Ascii.eqb c dquote); [| discriminate].
      destruct (read_string t) as [[key t1] |]; [| discriminate].
      destruct (skip_ws t1) as [| c1 t2]; [discriminate |].
      destruct (Ascii.eqb c1 ":"); [| discriminate].
      destruct (read_value n t2) as [v0 t3 | |] eqn:Hv; try discriminate.
      rewrite (IHv m t2 v0 t3) by (lia || assumption).
      destruct (skip_ws t3) as [| c3 t4]; [discriminate |].
      destruct (Ascii.eqb c3 ","); [apply IHm; lia |].
      exact (fun H => H).
Qed.

(** Reading back what [quote_char] wrote for one character. *)
Lemma read_quoted_char (c : ascii) (rest : list ascii) :
  read_string (quote_char c ++ rest) = cons_chars [c] (read_string rest).
Proof.
  destruct c as [b0 b1 b2 b3 b4 b5 b6 b7].
  destruct b7, b6, b5;
    destruct b0, b1, b2, b3, b4; try reflexivity;
    destruct rest as [| r0 [| r1 [| r2 [| r3 [| r4 [| r5 rest]]]]]]; reflexivity.
Qed.

Lemma read_quoted (l tail : list ascii) :
  read_string (flat_map quote_char l ++ dquote :: tail) = Some (l, tail).
Proof.
  induction l as [| c l IH].
  - reflexivity.
  - cbn [flat_map]. rewrite <- app_assoc, read_quoted_char, IH. reflexivity.
Qed.

Lemma chars_text (l : list ascii) : chars (text l) = l.
Proof. apply list_ascii_of_string_of_list_ascii. Qed.

Lemma text_chars (s : string) : text (chars s) = s.
Proof. apply string_of_list_ascii_of_string. Qed.

Lemma string_reads_back (s : string) : reads_back (JStr s).
Proof.
  intros m c t. cbn [serialize]. unfold quote.
  cbn [read_value app skip_ws].
  change (is_ws dquote) with false. cbv iota.
  change (Ascii.eqb dquote dquote) with true. cbv iota.
  rewrite <- app_assoc. cbn [app]. rewrite read_quoted, text_chars. reflexivity.
Qed.

Lemma null_reads_back : reads_back JNull.
Proof. intros m c t. reflexivity. Qed.

Lemma bool_reads_back (b : bool) : reads_back (JBool b).
Proof. intros m c t. destruct b; reflexivity. Qed.

Lemma nullable_reads_back (o : option string) : reads_back (nullable o).
Proof. destruct o; [apply string_reads_back | apply null_reads_back]. Qed.

Lemma read_member (n : nat) (kv : string * JSValue) (c : ascii) (t : list ascii)
  (acc : list (string * JSValue)) :
  reads_back (snd kv) ->
  read_members (S (S n)) (member_text kv ++ c :: t) acc =
    if Ascii.eqb c ","
    then read_members (S n) t (set_prop (fst kv) (snd kv) acc)
    else if Ascii.eqb c "}"
         then Ok (JObj (set_prop (fst kv) (snd kv) acc)) t
         else match skip_ws (c :: t) with
              | c3 :: r4 =>
                  if Ascii.eqb c3 ","
                  then read_members (S n) r4 (set_prop (fst kv) (snd kv) acc)
                  else if Ascii.eqb c3 "}"
                       then Ok (JObj (set_prop (fst kv) (snd kv) acc)) r4
                       else Bad
              | [] => Bad
              end.
Proof.
  intros Hv. unfold member_text, quote.
  cbn [read_members app skip_ws].
  change (is_ws dquote) with false. cbv iota.
  change (Ascii.eqb dquote dquote) with true. cbv iota.
  rewrite <- !app_assoc. cbn [app]. rewrite read_quoted, text_chars.
  cbn [chars list_ascii_of_string app skip_ws].
  change (is_ws ":") with false. cbv iota.
  change (Ascii.eqb ":" ":") with true. cbv iota.
  rewrite Hv.
  destruct (Ascii.eqb c ",") eqn:Hc1.
  { apply Ascii.eqb_eq in Hc1. subst c. reflexivity. }
  destruct (Ascii.eqb c "}") eqn:Hc2.
  { apply Ascii.eqb_eq in Hc2. subst c. reflexivity. }
  reflexivity.
Qed.

Lemma read_members_join (props : list (string * JSValue)) :
  forall (n : nat) (acc : list (string * JSValue)) (tail : list ascii),
    props <> [] ->
    length props < n ->
    Forall (fun kv => reads_back (snd kv)) props ->
    read_members n (join (chars ",") (List.map member_text props) ++ chars "}" ++ tail) acc
    = Ok (JObj (fold_left (fun a kv => set_prop (fst kv) (snd kv) a) props acc)) tail.
Proof.
  induction props as [| kv rest IH]; intros n acc tail Hne Hn Hall; [congruence |].
  inversion Hall as [| ? ? Hkv Hrest]; subst.
  destruct n as [| [| n]]; cbn [length] in Hn; try lia.
  destruct rest as [| kv' rest'].
  - cbn [List.map join fold_left]. cbn [chars list_ascii_of_string app].
    rewrite read_member by assumption. reflexivity.
  - cbn [List.map join]. rewrite <- !app_assoc.
    cbn [chars list_ascii_of_string app].
    rewrite read_member by assumption.
    change (Ascii.eqb "," ",") with true. cbv iota.
    cbn [fold_left].
    apply (IH (S n) _ tail); [discriminate | cbn [length] in *; lia | assumption].
Qed.

(** [JSON.parse(JSON.stringify(p))] gives back the object of a profile that
    has no joined gym. *)
Lemma parse_stringify_profile (p : UserProfile) :
  Profile.gym p = None ->
  JSON_parse (JSON_stringify (toJS p)) = Some (toJS p).
Proof.
  intros Hgym. unfold JSON_parse, JSON_stringify. rewrite chars_text.
  assert (Hread : read_value 13 (serialize (toJS p)) = Ok (toJS p) []).
  { unfold toJS. rewrite Hgym. cbn [app].
    cbn [serialize].
    change (fun kv : string * JSValue => quote (fst kv) ++ chars ":" ++ serialize (snd kv))
      with member_text.
    cbn [read_value chars list_ascii_of_string app skip_ws].
    change (is_ws "{") with false. cbv iota.
    change (Ascii.eqb "{" dquote) with false.
    change (Ascii.eqb "{" "[") with false.
    change (Ascii.eqb "{" "{") with true. cbv iota.
    set (props := [("id", JStr (Profile.id p)) ; _ ; _; _; _; _; _; _; _; _; _ ]).
    assert (Hjoin : read_members 12
              (join [","%char] (List.map member_text props) ++ chars "}" ++ []) []
            = Ok (JObj props) []).
    { rewrite read_members_join.
      - reflexivity.
      - discriminate.
      - cbn. lia.
      - subst props. repeat constructor; cbn [snd];
          try apply string_reads_back; try apply nullable_reads_back;
          apply bool_reads_back. }
    cbn [chars list_ascii_of_string app] in Hjoin.
    assert (Hhead : exists r, join [","%char] (List.map member_text props) ++ ["}"%char]
                              = dquote :: r).
    { subst props. cbn [List.map join]. unfold member_text at 1, quote at 1.
      cbn [app]. eauto. }
    destruct Hhead as [r Hr]. rewrite Hr in *. cbn [skip_ws].
    change (is_ws dquote) with false. cbv iota.
    change (Ascii.eqb dquote "}") with false. cbv iota. exact Hjoin. }
  assert (Hlen : 13 <= 2 * length (serialize (toJS p)) + 2).
  { assert (6 <= length (serialize (toJS p))); [| lia].
    unfold toJS. rewrite Hgym. cbn [app serialize List.map join].
    rewrite !length_app. cbn [length chars list_ascii_of_string]. lia. }
  rewrite (proj1 (read_more 13) _ _ _ _ Hlen Hread). reflexivity.
Qed.

Lemma role_of_name (r : Role) : role_of (role_name r) = Some r.
Proof. destruct r; reflexivity. Qed.

(** [fromJS] reads back the object of any profile. *)
Lemma fromJS_toJS (p : UserProfile) : fromJS (toJS p) = Some p.
Proof.
  destruct p as [i e f l r g ph d a c u gy].
  unfold fromJS, toJS.
  cbn [Profile.id Profile.email Profile.first_name Profile.last_name Profile.role
       Profile.gym_id Profile.phone Profile.date_of_birth Profile.is_active
       Profile.created_at Profile.updated_at Profile.gym].
  cbn [prop app List.find fst snd String.eqb Ascii.eqb Bool.eqb fmap option_fmap
       option_map as_string as_nullable as_bool mbind option_bind].
  rewrite role_of_name. cbn [mbind option_bind].
  destruct g, ph, d; cbn [nullable as_nullable mbind option_bind];
    destruct gy; reflexivity.
Qed.

Lemma readProfile_stringify (p : UserProfile) :
  Profile.gym p = None -> readProfile (JSON_stringify (toJS p)) = Some p.
Proof.
  intros Hgym. unfold readProfile. rewrite parse_stringify_profile by assumption.
  cbn [mbind option_bind]. apply fromJS_toJS.
Qed.

(** * Properties of the interpreter *)

Section Laws.
Context {R : Type} `{Env R}.

Lemma run_eta {A : Type} (r : Run R A) :
  {| outcome := outcome r; events := events r; final := final r |} = r.
Proof. destruct r; reflexivity. Qed.

Lemma run_bind {A B : Type} (p : Prog A) (f : A -> Prog B) (w : World R) :
  run (bind p f) w = seq (run p w) (fun a w' => run (f a) w').
Proof.
  revert w. induction p as [a | t | X l k IH | X c k IH]; intros w.
  - unfold seq. cbn. symmetry. apply run_eta.
  - reflexivity.
  - cbn [bind run]. rewrite IH. unfold seq, after. cbn.
    destruct (outcome (run (k _) _)); reflexivity.
  - cbn [bind run]. rewrite IH. unfold seq, after. cbn.
    destruct (outcome (run (k _) _)); reflexivity.
Qed.

(** No effect of the component ever cancels the subscription. *)
Lemma subscribed_kept {A : Type} (p : Prog A) (w : World R) :
  subscribed w = true -> subscribed (final (run p w)) = true.
Proof.
  revert w. induction p as [a | t | X l k IH | X c k IH]; intros w Hw; cbn.
  - exact Hw.
  - exact Hw.
  - apply IH. destruct l; cbn; auto.
  - apply IH. exact Hw.
Qed.

End Laws.

(** * The claims *)

Section Claims.
Context {R : Type} `{Env R} (cfg : Config).

Lemma toJS_not_null (p : UserProfile) : toJS p <> JNull.
Proof. unfold toJS. discriminate. Qed.

(** The catalogue has exactly its three entries. *)
Lemma demoUsers_entries (E : string) (p : UserProfile) :
  demoUsers cfg !! E = Some p ->
  p = demoAdmin cfg \/ p = demoCoach cfg \/ p = demoGymnast cfg.
Proof.
  unfold demoUsers. intros Hp.
  apply lookup_insert_Some in Hp as [[_ <-] | [_ Hp]]; [auto |].
  apply lookup_insert_Some in Hp as [[_ <-] | [_ Hp]]; [auto |].
  apply lookup_insert_Some in Hp as [[_ <-] | [_ Hp]]; [auto |].
  rewrite lookup_empty in Hp. discriminate Hp.
Qed.

Lemma demoUsers_no_gym (E : string) (p : UserProfile) :
  demoUsers cfg !! E = Some p -> Profile.gym p = None.
Proof.
  intros Hp. destruct (demoUsers_entries E p Hp) as [-> | [-> | ->]]; reflexivity.
Qed.

(** What [demoUsers[email]] gives: the entry for an address of the catalogue,
    the inherited member for a name of [Object.prototype] that is none, and
    nothing for any other string. *)
Lemma demoUsers_at_own (E : string) (p : UserProfile) :
  demoUsers cfg !! E = Some p -> demoUsers_at cfg E = Some (Data (toJS p)).
Proof. intros Hp. unfold demoUsers_at. rewrite Hp. reflexivity. Qed.

Lemma demoUsers_at_inherited (email : string) :
  demoUsers cfg !! email = None -> In email Object_prototype ->
  demoUsers_at cfg email = Some (Inherited email).
Proof.
  intros Hp Hin. unfold demoUsers_at. rewrite Hp.
  assert (Hex : existsb (String.eqb email) Object_prototype = true).
  { apply existsb_exists. exists email. split; [exact Hin | apply String.eqb_refl]. }
  rewrite Hex. reflexivity.
Qed.

Lemma demoUsers_at_none (email : string) :
  demoUsers_at cfg email = None
  <-> demoUsers cfg !! email = None /\ ~ In email Object_prototype.
Proof.
  unfold demoUsers_at. destruct (demoUsers cfg !! email) as [p |].
  - split; [discriminate | intros [Hp _]; discriminate Hp].
  - destruct (existsb (String.eqb email) Object_prototype) eqn:Hex.
    + split; [discriminate |]. intros [_ Hno]. exfalso. apply Hno.
      apply existsb_exists in Hex as [x [Hin Hx]].
      apply String.eqb_eq in Hx. subst x. exact Hin.
    + split; [| reflexivity]. intros _. split; [reflexivity |].
      intros Hin.
      assert (Hyes : existsb (String.eqb email) Object_prototype = true).
      { apply existsb_exists. exists email. split; [exact Hin | apply String.eqb_refl]. }
      rewrite Hyes in Hex. discriminate Hex.
Qed.

(** C6: for every e-mail address [E] of the demo catalogue,
    [login(E, "demo123")] returns normally, performs no call to the provider
    (its only effects are three state setters and one storage write), leaves
    [user] equal to the catalogue entry and [isLoading] false, and leaves the
    serialised entry in the [demoUser] slot, so the world is demo-active and
    the slot reads back as exactly that entry; the entry of
    ["coach@demo.com"] has role [coach] and gym ["demo-gym-id"]. *)
Theorem login_demo_catalog (E : string) (p : UserProfile) (w : World R) :
  demoUsers cfg !! E = Some p ->
  run (login cfg E "demo123") w =
    {| outcome := Returned tt;
       events := [ Did (SetIsLoading true) tt;
                   Did (SetError None) tt;
                   Did (SetUser (toJS p)) tt;
                   Did (SetItem "demoUser" (JSON_stringify (toJS p))) tt;
                   Did (SetIsLoading false) tt ];
       final :=
         {| state := {| user := toJS p; authUser := authUser (state w);
                        isLoading := false; error := None |};
            localStorage :=
              <["demoUser" := JSON_stringify (toJS p)]> (localStorage w);
            subscribed := subscribed w;
            outside := outside w |} |}
  /\ network (events (run (login cfg E "demo123") w)) = []
  /\ DemoActive (final (run (login cfg E "demo123") w))
  /\ localStorage (final (run (login cfg E "demo123") w)) !! "demoUser"
     = Some (JSON_stringify (toJS p))
  /\ readProfile (JSON_stringify (toJS p)) = Some p
  /\ demoUsers cfg !! "coach@demo.com" = Some (demoCoach cfg)
  /\ Profile.role (demoCoach cfg) = coach
  /\ Profile.gym_id (demoCoach cfg) = Some "demo-gym-id".
Proof.
  intros Hp.
  run_first ltac:(unfold login; rewrite String.eqb_refl, (demoUsers_at_own E p Hp);
                  unfold enterDemo; exec; reflexivity).
  cbn [events final state localStorage user].
  split; [reflexivity |]. split; [| split; [| split]].
  - split; [discriminate |].
    cbn [state localStorage user stringify]. eexists. split; [reflexivity |].
    apply lookup_insert_eq.
  - apply lookup_insert_eq.
  - apply readProfile_stringify. exact (demoUsers_no_gym E p Hp).
  - split; [reflexivity |]. split; reflexivity.
Qed.

(** C2: from every world, [logout()] returns normally (it has no [throw] and
    nothing it awaits rejects), removes the [demoUser] slot, calls the
    provider's [signOut], and ends with [user = null] and [authUser = null];
    the message of a failed sign-out is what [error] holds afterwards
    ([null] when it succeeded), and [isLoading] is left as it was. *)
Theorem logout_always_unauthenticated (w : World R) :
  let reply := fst (respond SignOut (outside w)) in
  run logout w =
    {| outcome := Returned tt;
       events := Did (SetError None) tt
                 :: Did (RemoveItem "demoUser") tt
                 :: Called SignOut reply
                 :: match Reply.error reply with
                    | Some e => [ Did (SetError (Some (message e))) tt ]
                    | None => []
                    end
                 ++ [ Did (SetUser JNull) tt; Did (SetAuthUser None) tt ];
       final :=
         {| state := {| user := JNull; authUser := None;
                        isLoading := isLoading (state w);
                        error := option_map message (Reply.error reply) |};
            localStorage := delete "demoUser" (localStorage w);
            subscribed := subscribed w;
            outside := snd (respond SignOut (outside w)) |} |}
  /\ outcome (run logout w) = Returned tt
  /\ Unauthenticated (state (final (run logout w)))
  /\ localStorage (final (run logout w)) !! "demoUser" = None
  /\ network (events (run logout w)) = [ Called SignOut reply ].
Proof.
  intros reply.
  run_first ltac:(unfold logout; exec; fold reply;
                  destruct (Reply.error reply) as [e |]; exec; reflexivity).
  cbn [outcome events final state localStorage user authUser].
  split; [reflexivity |]. split; [split; reflexivity |].
  split; [apply lookup_delete_eq |].
  destruct (Reply.error reply); reflexivity.
Qed.

(** C9: from every world and for every event name, the change handler called
    without a session sets [authUser] and [user] to [null] and [isLoading] to
    false, touching nothing else, so the state is unauthenticated. *)
Theorem session_ended_clears (event : string) (w : World R) :
  run (onAuthStateChange event None) w =
    {| outcome := Returned tt;
       events := [ Did (SetAuthUser None) tt;
                   Did (SetUser JNull) tt;
                   Did (SetIsLoading false) tt ];
       final :=
         {| state := {| user := JNull; authUser := None;
                        isLoading := false; error := error (state w) |};
            localStorage := localStorage w;
            subscribed := subscribed w;
            outside := outside w |} |}
  /\ Unauthenticated (state (final (run (onAuthStateChange event None) w))).
Proof.
  split; [reflexivity |]. split; reflexivity.
Qed.


(** ** [signUp] stops at the first step that fails *)

Lemma signUp_aborts_at_account_creation
  (email password firstName lastName : string) (w : World R)
  (rep1 : Reply (option AuthUser)) (e : ApiError) (r1 : R) :
  isSupabaseConfigured cfg = true ->
  respond (SupabaseSignUp email password (signUp_meta email firstName lastName))
    (outside w) = (rep1, r1) ->
  Reply.error rep1 = Some e ->
  run (signUp cfg email password firstName lastName) w =
    {| outcome := Threw (JsError (message e));
       events :=
         [ Did (SetIsLoading true) tt;
           Did (SetError None) tt;
           Called (SupabaseSignUp email password
                     (signUp_meta email firstName lastName)) rep1;
           Did (SetError (Some (message e))) tt;
           Did (SetIsLoading false) tt ];
       final :=
         {| state := {| user := user (state w); authUser := authUser (state w);
                        isLoading := false; error := Some (message e) |};
            localStorage := localStorage w;
            subscribed := subscribed w;
            outside := r1 |} |}.
Proof.
  intros Hcfg H1 He1.
  unfold signUp, signUpWithProvider. rewrite Hcfg. exec.
  fold (signUp_meta email firstName lastName). rewrite H1. exec.
  rewrite He1. exec. reflexivity.
Qed.

Lemma signUp_aborts_at_signIn
  (email password firstName lastName : string) (w : World R)
  (rep1 : Reply (option AuthUser)) (rep2 : Reply (option Session))
  (u : AuthUser) (e : ApiError) (r1 r2 : R) :
  isSupabaseConfigured cfg = true ->
  respond (SupabaseSignUp email password (signUp_meta email firstName lastName))
    (outside w) = (rep1, r1) ->
  Reply.error rep1 = None -> Reply.data rep1 = Some u -> uid u <> EmptyString ->
  respond (SignIn email password) r1 = (rep2, r2) ->
  Reply.error rep2 = Some e ->
  run (signUp cfg email password firstName lastName) w =
    {| outcome := Threw (JsError (message e));
       events :=
         [ Did (SetIsLoading true) tt;
           Did (SetError None) tt;
           Called (SupabaseSignUp email password
                     (signUp_meta email firstName lastName)) rep1;
           Called (SignIn email password) rep2;
           Did (SetError (Some (message e))) tt;
           Did (SetIsLoading false) tt ];
       final :=
         {| state := {| user := user (state w); authUser := authUser (state w);
                        isLoading := false; error := Some (message e) |};
            localStorage := localStorage w;
            subscribed := subscribed w;
            outside := r2 |} |}.
Proof.
  intros Hcfg H1 He1 Hd1 Hid H2 He2.
  unfold signUp, signUpWithProvider. rewrite Hcfg. exec.
  fold (signUp_meta email firstName lastName). rewrite H1. exec.
  rewrite He1, Hd1. cbn [option_map truthy].
  apply String.eqb_neq in Hid. rewrite Hid. exec.
  rewrite H2. exec. rewrite He2. exec. reflexivity.
Qed.

(** C1: with a provider configured, when account creation answers with a
    user that has an id, the sign-in with the same credentials succeeds and
    the insertion of the profile row keyed by that id fails, then [signUp]
    has called exactly these three, in this order, and nothing after the
    failure; it throws the error of the insertion, records its message in
    [error], clears [isLoading] and leaves [user], [authUser] and the slot as
    they were.  The outside world is left as the failed insertion left it:
    whatever held after account creation and is kept by a sign-in and by an
    insertion attempt (such as the existence of the new account) still
    holds. *)
Theorem signUp_profile_failure_not_rolled_back
  (email password firstName lastName : string) (w : World R)
  (rep1 : Reply (option AuthUser)) (rep2 : Reply (option Session))
  (rep3 : Reply unit) (u : AuthUser) (e : ApiError) (r1 r2 r3 : R) :
  isSupabaseConfigured cfg = true ->
  respond (SupabaseSignUp email password (signUp_meta email firstName lastName))
    (outside w) = (rep1, r1) ->
  Reply.error rep1 = None -> Reply.data rep1 = Some u -> uid u <> EmptyString ->
  respond (SignIn email password) r1 = (rep2, r2) ->
  Reply.error rep2 = None ->
  respond (CreateUserProfile (signUp_row (uid u) email firstName lastName)) r2
    = (rep3, r3) ->
  Reply.error rep3 = Some e ->
  run (signUp cfg email password firstName lastName) w =
    {| outcome := Threw (JsError (message e));
       events :=
         [ Did (SetIsLoading true) tt;
           Did (SetError None) tt;
           Called (SupabaseSignUp email password
                     (signUp_meta email firstName lastName)) rep1;
           Called (SignIn email password) rep2;
           Called (CreateUserProfile
                     (signUp_row (uid u) email firstName lastName)) rep3;
           Did (SetError (Some (message e))) tt;
           Did (SetIsLoading false) tt ];
       final :=
         {| state := {| user := user (state w); authUser := authUser (state w);
                        isLoading := false; error := Some (message e) |};
            localStorage := localStorage w;
            subscribed := subscribed w;
            outside := r3 |} |}
  /\ network (events (run (signUp cfg email password firstName lastName) w)) =
       [ Called (SupabaseSignUp email password
                   (signUp_meta email firstName lastName)) rep1;
         Called (SignIn email password) rep2;
         Called (CreateUserProfile
                   (signUp_row (uid u) email firstName lastName)) rep3 ]
  /\ forall P : R -> Prop,
       P r1 ->
       (forall r, P r -> P (snd (respond (SignIn email password) r))) ->
       (forall row r, P r -> P (snd (respond (CreateUserProfile row) r))) ->
       P (outside (final (run (signUp cfg email password firstName lastName) w))).
Proof.
  intros Hcfg H1 He1 Hd1 Hid H2 He2 H3 He3.
  run_first ltac:(
    unfold signUp, signUpWithProvider; rewrite Hcfg; exec;
    fold (signUp_meta email firstName lastName); rewrite H1; exec;
    rewrite He1, Hd1; cbn [option_map truthy];
    apply String.eqb_neq in Hid; rewrite Hid; exec;
    rewrite H2; exec; rewrite He2; exec;
    fold (signUp_row (uid u) email firstName lastName); rewrite H3; exec;
    rewrite He3; exec; reflexivity).
  cbn [events final outside]. split; [reflexivity |].
  intros P HP Hin Hrow.
  specialize (Hin r1 HP). rewrite H2 in Hin. cbn [snd] in Hin.
  specialize (Hrow (signUp_row (uid u) email firstName lastName) _ Hin).
  rewrite H3 in Hrow. exact Hrow.
Qed.

(** C10: with a provider configured, when the three steps succeed [signUp]
    returns normally having performed, besides the three calls, only
    [setIsLoading(true)] and [setError(null)]: [isLoading] is true and
    [user], [authUser] and the storage are as before.  It is the change
    handler that, run with the session, sets [authUser] and always clears
    [isLoading]. *)
Theorem signUp_success_leaves_loading
  (email password firstName lastName : string) (w : World R)
  (rep1 : Reply (option AuthUser)) (rep2 : Reply (option Session))
  (rep3 : Reply unit) (u : AuthUser) (r1 r2 r3 : R) :
  isSupabaseConfigured cfg = true ->
  respond (SupabaseSignUp email password (signUp_meta email firstName lastName))
    (outside w) = (rep1, r1) ->
  Reply.error rep1 = None -> Reply.data rep1 = Some u -> uid u <> EmptyString ->
  respond (SignIn email password) r1 = (rep2, r2) ->
  Reply.error rep2 = None ->
  respond (CreateUserProfile (signUp_row (uid u) email firstName lastName)) r2
    = (rep3, r3) ->
  Reply.error rep3 = None ->
  run (signUp cfg email password firstName lastName) w =
    {| outcome := Returned tt;
       events :=
         [ Did (SetIsLoading true) tt;
           Did (SetError None) tt;
           Called (SupabaseSignUp email password
                     (signUp_meta email firstName lastName)) rep1;
           Called (SignIn email password) rep2;
           Called (CreateUserProfile
                     (signUp_row (uid u) email firstName lastName)) rep3 ];
       final :=
         {| state := {| user := user (state w); authUser := authUser (state w);
                        isLoading := true; error := None |};
            localStorage := localStorage w;
            subscribed := subscribed w;
            outside := r3 |} |}
  /\ forall (event : string) (s : Session) (w' : World R),
       let st := state (final (run (onAuthStateChange event (Some s)) w')) in
       authUser st = Some (session_user s) /\ isLoading st = false.
Proof.
  intros Hcfg H1 He1 Hd1 Hid H2 He2 H3 He3.
  run_first ltac:(
    unfold signUp, signUpWithProvider; rewrite Hcfg; exec;
    fold (signUp_meta email firstName lastName); rewrite H1; exec;
    rewrite He1, Hd1; cbn [option_map truthy];
    apply String.eqb_neq in Hid; rewrite Hid; exec;
    rewrite H2; exec; rewrite He2; exec;
    fold (signUp_row (uid u) email firstName lastName); rewrite H3; exec;
    rewrite He3; exec; reflexivity).
  clear. intros event s w'. unfold onAuthStateChange, loadUserProfile. exec.
  destruct (Reply.error _); exec; [split; reflexivity |].
  destruct (Reply.data _); exec; split; reflexivity.
Qed.

Lemma decimal_inj (a b : Z) : decimal a = decimal b -> a = b.
Proof.
  unfold decimal. intros Heq.
  assert (Hnn : forall z, Z.to_int z <> Decimal.Pos Decimal.Nil
                          /\ Z.to_int z <> Decimal.Neg Decimal.Nil).
  { intros [| p | p]; cbn; split; try discriminate;
      intros Hp; injection Hp as Hp; exact (DecimalPos.Unsigned.to_uint_nonnil p Hp). }
  apply (f_equal NilZero.int_of_string) in Heq.
  rewrite !NilZero.isi in Heq by apply Hnn.
  injection Heq as Heq. apply DecimalZ.to_int_inj. exact Heq.
Qed.

Lemma signUp_unconfigured_run (email password firstName lastName : string)
  (w : World R) :
  isSupabaseConfigured cfg = false ->
  let now := fst (respond DateNow (outside w)) in
  let r1 := snd (respond DateNow (outside w)) in
  let created := fst (respond NewDateISO r1) in
  let r2 := snd (respond NewDateISO r1) in
  let updated := fst (respond NewDateISO r2) in
  let r3 := snd (respond NewDateISO r2) in
  let demoUser := synthesized now created updated email firstName lastName in
  run (signUp cfg email password firstName lastName) w =
    {| outcome := Returned tt;
       events :=
         [ Did (SetIsLoading true) tt;
           Did (SetError None) tt;
           Called DateNow now;
           Called NewDateISO created;
           Called NewDateISO updated;
           Did (SetUser (toJS demoUser)) tt;
           Did (SetItem "demoUser" (JSON_stringify (toJS demoUser))) tt;
           Did (SetIsLoading false) tt ];
       final :=
         {| state := {| user := toJS demoUser; authUser := authUser (state w);
                        isLoading := false; error := None |};
            localStorage :=
              <["demoUser" := JSON_stringify (toJS demoUser)]> (localStorage w);
            subscribed := subscribed w;
            outside := r3 |} |}.
Proof.
  intros Hcfg. unfold signUp. rewrite Hcfg. exec. reflexivity.
Qed.

(** C7 (as the code has it): with no provider configured, every [signUp]
    returns normally after reading the clock three times and nothing else
    from outside (no call reaches the provider); it stores in [user] and, in
    serialised form, in the [demoUser] slot a profile with role [gymnast],
    no gym and the id ["demo-"] followed by the [Date.now()] reading in
    decimal.  The ids synthesised by two calls are equal exactly when the two
    [Date.now()] readings are equal. *)
Theorem signUp_unconfigured_profile
  (email password firstName lastName : string) (w : World R) :
  isSupabaseConfigured cfg = false ->
  let now := fst (respond DateNow (outside w)) in
  let done := run (signUp cfg email password firstName lastName) w in
  outcome done = Returned tt
  /\ network (events done) = []
  /\ (exists created updated,
        let demoUser := synthesized now created updated email firstName lastName in
        user (state (final done)) = toJS demoUser
        /\ localStorage (final done) !! "demoUser"
           = Some (JSON_stringify (toJS demoUser))
        /\ Profile.role demoUser = gymnast
        /\ Profile.gym_id demoUser = None)
  /\ prop "role" (user (state (final done))) = Some (JStr "gymnast")
  /\ prop "gym_id" (user (state (final done))) = Some JNull
  /\ prop "id" (user (state (final done))) = Some (JStr ("demo-" +:+ decimal now))
  /\ forall (email' password' firstName' lastName' : string) (w' : World R),
       prop "id" (user (state (final done)))
       = prop "id" (user (state (final
           (run (signUp cfg email' password' firstName' lastName') w'))))
       <-> now = fst (respond DateNow (outside w')).
Proof.
  intros Hcfg now done. subst done.
  rewrite (signUp_unconfigured_run _ _ _ _ _ Hcfg).
  cbn [outcome events final state user localStorage]. fold now.
  split; [reflexivity |]. split; [reflexivity |]. split.
  { eexists _, _. split; [reflexivity |]. split; [apply lookup_insert_eq |].
    split; reflexivity. }
  split; [reflexivity |]. split; [reflexivity |]. split; [reflexivity |].
  intros email' password' firstName' lastName' w'.
  rewrite (signUp_unconfigured_run _ _ _ _ _ Hcfg).
  cbn [final state user]. unfold synthesized, toJS, prop.
  cbn [Profile.id Profile.gym app List.find fst snd String.eqb Ascii.eqb
       Bool.eqb fmap option_fmap option_map].
  split.
  - intros Heq. injection Heq as Heq. apply decimal_inj. exact Heq.
  - intros ->. reflexivity.
Qed.

(** C4 (as the code has it): with no provider configured, [signUp] always
    returns normally without any call to the provider.  [login] returns
    normally, again without any such call, exactly when the password is the
    demo password and [demoUsers[email]] is defined, that is when the address
    is in the catalogue or is the name of a member that the catalogue object
    inherits from [Object.prototype]; it has then handed that value to
    [setUser], written its serialisation to the slot and cleared
    [isLoading].  For every other input it throws
    ["Supabase credentials are not configured."], having put the same
    message in [error] and cleared [isLoading], with no call to the provider
    and no other change. *)
Theorem unconfigured_login_and_signUp :
  isSupabaseConfigured cfg = false ->
  (forall (email password firstName lastName : string) (w : World R),
      outcome (run (signUp cfg email password firstName lastName) w) = Returned tt
      /\ network (events (run (signUp cfg email password firstName lastName) w)) = [])
  /\ (forall (email password : string) (w : World R),
        let done := run (login cfg email password) w in
        match (if String.eqb password "demo123" then demoUsers_at cfg email else None)
        with
        | Some demoUser =>
            outcome done = Returned tt
            /\ events done =
                 [ Did (SetIsLoading true) tt;
                   Did (SetError None) tt;
                   Did (SetUser demoUser) tt;
                   Did (SetItem "demoUser" (to_string (stringify demoUser))) tt;
                   Did (SetIsLoading false) tt ]
            /\ network (events done) = []
            /\ error (state (final done)) = None
            /\ isLoading (state (final done)) = false
            /\ authUser (state (final done)) = authUser (state w)
            /\ localStorage (final done) =
                 <["demoUser" := to_string (stringify demoUser)]> (localStorage w)
            /\ subscribed (final done) = subscribed w
            /\ outside (final done) = outside w
        | None =>
            done =
              {| outcome :=
                   Threw (JsError "Supabase credentials are not configured.");
                 events :=
                   [ Did (SetIsLoading true) tt;
                     Did (SetError None) tt;
                     Did (SetError
                            (Some "Supabase credentials are not configured.")) tt;
                     Did (SetIsLoading false) tt ];
                 final :=
                   {| state :=
                        {| user := user (state w);
                           authUser := authUser (state w);
                           isLoading := false;
                           error :=
                             Some "Supabase credentials are not configured." |};
                      localStorage := localStorage w;
                      subscribed := subscribed w;
                      outside := outside w |} |}
        end)
  /\ (forall email : string,
        demoUsers_at cfg email = None
        <-> demoUsers cfg !! email = None /\ ~ In email Object_prototype)
  /\ (forall (email : string) (p : UserProfile),
        demoUsers cfg !! email = Some p ->
        demoUsers_at cfg email = Some (Data (toJS p)))
  /\ (forall email : string,
        demoUsers cfg !! email = None -> In email Object_prototype ->
        demoUsers_at cfg email = Some (Inherited email)).
Proof.
  intros Hcfg. split; [| split; [| split; [| split]]].
  - intros email password firstName lastName w.
    rewrite (signUp_unconfigured_run _ _ _ _ _ Hcfg). split; reflexivity.
  - intros email password w. cbv zeta. unfold login.
    destruct (if String.eqb password "demo123" then demoUsers_at cfg email else None)
      as [v |].
    + unfold enterDemo. exec. repeat split.
    + rewrite Hcfg. exec. reflexivity.
  - apply demoUsers_at_none.
  - apply demoUsers_at_own.
  - apply demoUsers_at_inherited.
Qed.

(** C5: [login] reaches the provider only when the demo check at its head
    found nothing (the password is not the demo password, or
    [demoUsers[email]] is undefined); a demo login makes no call.  When it
    does reach the provider and the sign-in answers with an error, [login]
    throws an [Error] with the provider's message, after putting that
    message in [error] and clearing [isLoading], and changes nothing else:
    the fallback condition (unverified account, demo password, address in
    the catalogue) cannot hold there, so the error is always propagated.
    The [try] block taken by itself (lines 196 to 223) enters the demo branch
    exactly when the message includes ["Email not confirmed"], the password
    is the demo password and [demoUsers[email]] is defined, and throws the
    provider's message in every other case. *)
Theorem login_provider_failure
  (email password : string) (w : World R)
  (rep : Reply (option Session)) (e : ApiError) (r' : R) :
  respond (SignIn email password) (outside w) = (rep, r') ->
  Reply.error rep = Some e ->
  match (if includes (message e) "Email not confirmed"
            && String.eqb password "demo123"
         then demoUsers_at cfg email else None) with
  | Some demoUser =>
      let done := run (loginWithProvider cfg email password) w in
      outcome done = Returned tt
      /\ events done =
           [ Called (SignIn email password) rep;
             Did (SetUser demoUser) tt;
             Did (SetItem "demoUser" (to_string (stringify demoUser))) tt;
             Did (SetIsLoading false) tt ]
      /\ match demoUser with
         | Data v => user (state (final done)) = v
         | Inherited _ => True
         end
      /\ authUser (state (final done)) = authUser (state w)
      /\ isLoading (state (final done)) = false
      /\ error (state (final done)) = error (state w)
      /\ localStorage (final done) =
           <["demoUser" := to_string (stringify demoUser)]> (localStorage w)
      /\ subscribed (final done) = subscribed w
      /\ outside (final done) = r'
  | None =>
      run (loginWithProvider cfg email password) w =
        {| outcome := Threw (JsError (message e));
           events :=
             [ Called (SignIn email password) rep;
               Did (SetError (Some (message e))) tt;
               Did (SetIsLoading false) tt ];
           final :=
             {| state := {| user := user (state w);
                            authUser := authUser (state w);
                            isLoading := false;
                            error := Some (message e) |};
                localStorage := localStorage w;
                subscribed := subscribed w;
                outside := r' |} |}
  end
  /\ (isSupabaseConfigured cfg = true ->
      (if String.eqb password "demo123" then demoUsers_at cfg email else None) = None ->
      run (login cfg email password) w =
        after (Did (SetIsLoading true) tt)
          (after (Did (SetError None) tt)
             (run (loginWithProvider cfg email password) (loginPrelude w)))
      /\ run (login cfg email password) w =
           {| outcome := Threw (JsError (message e));
              events :=
                [ Did (SetIsLoading true) tt;
                  Did (SetError None) tt;
                  Called (SignIn email password) rep;
                  Did (SetError (Some (message e))) tt;
                  Did (SetIsLoading false) tt ];
              final :=
                {| state := {| user := user (state w);
                               authUser := authUser (state w);
                               isLoading := false;
                               error := Some (message e) |};
                   localStorage := localStorage w;
                   subscribed := subscribed w;
                   outside := r' |} |}
      /\ outcome (run (login cfg email password) w) = Threw (JsError (message e))
      /\ error (state (final (run (login cfg email password) w)))
         = Some (message e)
      /\ ~ (includes (message e) "Email not confirmed" = true
            /\ password = "demo123"
            /\ exists p, demoUsers cfg !! email = Some p))
  /\ ((if String.eqb password "demo123" then demoUsers_at cfg email else None) <> None ->
      network (events (run (login cfg email password) w)) = []).
Proof.
  intros Hr He. split; [| split].
  - unfold loginWithProvider. exec. rewrite Hr. exec. rewrite He.
    destruct (if includes (message e) "Email not confirmed"
                 && String.eqb password "demo123"
              then demoUsers_at cfg email else None) as [v |].
    + unfold enterDemo. exec. destruct v; repeat split.
    + exec. reflexivity.
  - intros Hcfg Hdemo.
    assert (Hno : (if includes (message e) "Email not confirmed"
                      && String.eqb password "demo123"
                   then demoUsers_at cfg email else None) = None).
    { destruct (String.eqb password "demo123").
      - rewrite Hdemo. destruct (includes _ _); reflexivity.
      - rewrite andb_false_r. reflexivity. }
    assert (Hrun : run (login cfg email password) w =
              {| outcome := Threw (JsError (message e));
                 events :=
                   [ Did (SetIsLoading true) tt;
                     Did (SetError None) tt;
                     Called (SignIn email password) rep;
                     Did (SetError (Some (message e))) tt;
                     Did (SetIsLoading false) tt ];
                 final :=
                   {| state := {| user := user (state w);
                                  authUser := authUser (state w);
                                  isLoading := false;
                                  error := Some (message e) |};
                      localStorage := localStorage w;
                      subscribed := subscribed w;
                      outside := r' |} |}).
    { unfold login. rewrite Hdemo, Hcfg. exec.
      unfold loginWithProvider. exec. rewrite Hr. exec. rewrite He, Hno.
      exec. reflexivity. }
    split.
    { unfold login. rewrite Hdemo, Hcfg. exec. reflexivity. }
    split; [exact Hrun |]. rewrite Hrun.
    split; [reflexivity |]. split; [reflexivity |].
    intros [_ [-> [p Hp]]]. rewrite String.eqb_refl in Hdemo.
    rewrite (demoUsers_at_own email p Hp) in Hdemo. discriminate Hdemo.
  - intros Hdemo. unfold login.
    destruct (if String.eqb password "demo123" then demoUsers_at cfg email else None)
      as [v |]; [| contradiction].
    unfold enterDemo. exec. reflexivity.
Qed.

(** ** Frame properties: who writes [authUser] and the subscription *)

Lemma login_frame (email password : string) (w : World R) :
  authUser (state (final (run (login cfg email password) w))) = authUser (state w)
  /\ subscribed (final (run (login cfg email password) w)) = subscribed w.
Proof.
  unfold login, loginWithProvider, enterDemo. frames.
Qed.

Lemma signUp_frame (email password firstName lastName : string) (w : World R) :
  authUser (state (final (run (signUp cfg email password firstName lastName) w)))
  = authUser (state w)
  /\ subscribed (final (run (signUp cfg email password firstName lastName) w))
     = subscribed w.
Proof.
  unfold signUp, signUpWithProvider. frames.
Qed.

Lemma logout_frame (w : World R) :
  authUser (state (final (run logout w))) = None
  /\ subscribed (final (run logout w)) = subscribed w.
Proof.
  unfold logout. frames.
Qed.

Lemma handler_frame (event : string) (session : option Session) (w : World R) :
  subscribed (final (run (onAuthStateChange event session) w)) = subscribed w.
Proof.
  unfold onAuthStateChange, loadUserProfile. frames; reflexivity.
Qed.

Lemma mount_frame (ls : gmap string string) (r : R) :
  authUser (state (final (run mount (fresh ls r)))) <> None ->
  subscribed (final (run mount (fresh ls r))) = true.
Proof.
  unfold mount, restoreSession, loadUserProfile, parse, fresh, initialState.
  exec. destruct (ls !! "demoUser") as [content |]; exec.
  - destruct (truthy (Some content)); exec.
    + destruct (JSON_parse content); exec.
      * intros Hne. exfalso. apply Hne. reflexivity.
      * intros _. apply subscribed_kept. reflexivity.
    + intros _. apply subscribed_kept. reflexivity.
  - intros _. apply subscribed_kept. reflexivity.
Qed.

Lemma reachable_play (acts : list Action) (w : World R) :
  reachable cfg w -> reachable cfg (play cfg acts w).
Proof.
  revert w. induction acts as [| a rest IH]; intros w Hw; cbn [play].
  - exact Hw.
  - apply IH. destruct (enabled a w) eqn:Hen.
    + apply reach_step; assumption.
    + exact Hw.
Qed.

(** C3 (as the code has it): [authUser] is written by the session lookup of
    the mount effect, by the change handler and by [logout] only.  So in
    every reachable world a non-null [authUser] means that the mount effect
    took the provider path and subscribed the handler; [login] and [signUp]
    leave [authUser] as it was, whichever branch they take (a demo login
    keeps the identity that was there); and once a world has no subscription
    and no identity, as after a mount that restored the demo slot, no
    sequence of actions gives it an identity. *)
Theorem identity_only_from_provider_paths :
  (forall w : World R,
      reachable cfg w -> authUser (state w) <> None -> subscribed w = true)
  /\ (forall (email password : string) (w : World R),
        authUser (state (final (run (login cfg email password) w)))
        = authUser (state w))
  /\ (forall (email password firstName lastName : string) (w : World R),
        authUser (state (final
          (run (signUp cfg email password firstName lastName) w)))
        = authUser (state w))
  /\ (forall (acts : list Action) (w : World R),
        subscribed w = false -> authUser (state w) = None ->
        subscribed (play cfg acts w) = false
        /\ authUser (state (play cfg acts w)) = None).
Proof.
  split; [| split; [| split]].
  - intros w Hreach. induction Hreach as [ls r | w a Hreach IH Hen].
    + apply mount_frame.
    + destruct a as [email password | email password firstName lastName | | event session];
        cbn [program enabled] in *.
      * destruct (login_frame email password w) as [-> ->]. exact IH.
      * destruct (signUp_frame email password firstName lastName w) as [-> ->].
        exact IH.
      * destruct (logout_frame w) as [-> _]. intros Hne. exfalso. apply Hne. reflexivity.
      * intros _. rewrite handler_frame. exact Hen.
  - intros email password w. apply login_frame.
  - intros email password firstName lastName w. apply signUp_frame.
  - intros acts. induction acts as [| a rest IH]; intros w Hsub Hauth; cbn [play].
    + split; assumption.
    + destruct a as [email password | email password firstName lastName | | event session];
        cbn [program enabled].
      * destruct (login_frame email password w) as [Ha Hs].
        apply IH; [rewrite Hs | rewrite Ha]; assumption.
      * destruct (signUp_frame email password firstName lastName w) as [Ha Hs].
        apply IH; [rewrite Hs | rewrite Ha]; assumption.
      * destruct (logout_frame w) as [Ha Hs].
        apply IH; [rewrite Hs | rewrite Ha]; [assumption | reflexivity].
      * rewrite Hsub. apply IH; assumption.
Qed.

(** ** The mount effect on a slot written by a demo login *)

Lemma stringify_not_empty (p : UserProfile) : JSON_stringify (toJS p) <> EmptyString.
Proof. unfold JSON_stringify, toJS. cbn [serialize chars list_ascii_of_string app text string_of_list_ascii]. discriminate. Qed.

Lemma mount_restores_demo (p : UserProfile) (ls : gmap string string) (r : R) :
  ls !! "demoUser" = Some (JSON_stringify (toJS p)) ->
  Profile.gym p = None ->
  run mount (fresh ls r) =
    {| outcome := Returned tt;
       events := [ Did (GetItem "demoUser") (Some (JSON_stringify (toJS p)));
                   Did (SetUser (toJS p)) tt;
                   Did (SetIsLoading false) tt ];
       final :=
         {| state := {| user := toJS p; authUser := None;
                        isLoading := false; error := None |};
            localStorage := ls;
            subscribed := false;
            outside := r |} |}.
Proof.
  intros Hslot Hgym. unfold mount, parse, fresh, initialState. exec.
  rewrite Hslot. cbn [truthy].
  pose proof (stringify_not_empty p) as Hne. apply String.eqb_neq in Hne.
  rewrite Hne. cbn [negb]. rewrite parse_stringify_profile by assumption.
  exec. reflexivity.
Qed.

(** C8 (as the code has it): when the [demoUser] slot holds a non-empty text
    on which [JSON.parse] throws, the mount effect removes the slot, lets no
    exception escape, subscribes the change handler and goes on to ask the
    provider for a session; when the provider reports none, the component
    ends unauthenticated with [isLoading] false and no error. *)
Theorem mount_unparsable_slot
  (content : string) (ls : gmap string string) (r : R) :
  ls !! "demoUser" = Some content ->
  content <> EmptyString ->
  JSON_parse content = None ->
  let reply := fst (respond GetSession r) in
  let done := run mount (fresh ls r) in
  outcome done = Returned tt
  /\ localStorage (final done) = delete "demoUser" ls
  /\ localStorage (final done) !! "demoUser" = None
  /\ subscribed (final done) = true
  /\ (Reply.data reply = None ->
      events done =
        [ Did (GetItem "demoUser") (Some content);
          Did (RemoveItem "demoUser") tt;
          Did OnAuthStateChange tt;
          Called GetSession reply;
          Did (SetIsLoading false) tt ]
      /\ state (final done) =
           {| user := JNull; authUser := None; isLoading := false; error := None |}
      /\ Unauthenticated (state (final done))).
Proof.
  intros Hslot Hne Hparse reply done. subst done.
  unfold mount, restoreSession, loadUserProfile, parse, fresh, initialState.
  exec. rewrite Hslot. cbn [truthy]. apply String.eqb_neq in Hne. rewrite Hne.
  cbn [negb]. rewrite Hparse. exec. fold reply.
  assert (Hgone : delete "demoUser" ls !! "demoUser" = None)
    by apply lookup_delete_eq.
  destruct (Reply.data reply) as [s |]; exec.
  - assert (Hno : forall P : Prop, Some s = None -> P) by (intros P Hd; discriminate Hd).
    destruct (Reply.error _); exec;
      [| destruct (Reply.data _); exec ];
      (split; [reflexivity |]); (split; [reflexivity |]);
      (split; [exact Hgone |]); (split; [reflexivity |]); apply Hno.
  - repeat split; try reflexivity; exact Hgone.
Qed.

End Claims.

(** * The claims on concrete scenarios *)

Lemma signIn_keeps_accounts (email password : string) (b : Backend) :
  accounts (snd (signIn email password b)) = accounts b.
Proof.
  unfold signIn. destruct (account_of email b) as [a |]; [| reflexivity].
  destruct (negb _); [reflexivity |]. destruct (negb _); reflexivity.
Qed.

Lemma insertRow_keeps_accounts (row : ProfileInsert) (b : Backend) :
  accounts (snd (insertRow row b)) = accounts b.
Proof.
  unfold insertRow. destruct (session b) as [s |]; [| reflexivity].
  destruct (negb _); [reflexivity |]. destruct (row_of _ _); reflexivity.
Qed.

(** C6 at the coach entry, on a freshly mounted component. *)
Lemma login_demo_catalog_witness :
  demoUsers configured !! "coach@demo.com" = Some (demoCoach configured)
  /\ outcome (run (login configured "coach@demo.com" "demo123")
                (fresh ∅ empty_backend)) = Returned tt
  /\ prop "role" (user (state (final
       (run (login configured "coach@demo.com" "demo123")
          (fresh ∅ empty_backend))))) = Some (JStr "coach")
  /\ prop "gym_id" (user (state (final
       (run (login configured "coach@demo.com" "demo123")
          (fresh ∅ empty_backend))))) = Some (JStr "demo-gym-id").
Proof.
  assert (Hc : demoUsers configured !! "coach@demo.com" = Some (demoCoach configured))
    by reflexivity.
  split; [exact Hc |].
  destruct (login_demo_catalog configured "coach@demo.com" (demoCoach configured)
              (fresh ∅ empty_backend) Hc) as [Hrun _].
  rewrite Hrun. split; [reflexivity |]. split; reflexivity.
Defined.

(** C1 on the in-memory provider: the new account gets the id of a row that
    is already in the table, so the insertion fails on the primary key; the
    account is there afterwards. *)
Lemma signUp_profile_failure_witness :
  isSupabaseConfigured configured = true
  /\ outcome (run (signUp configured "new@x.com" "demo123" "A" "B")
                (fresh ∅ stale_row_backend))
     = Threw (JsError "duplicate key value violates unique constraint")
  /\ error (state (final (run (signUp configured "new@x.com" "demo123" "A" "B")
                            (fresh ∅ stale_row_backend))))
     = Some "duplicate key value violates unique constraint"
  /\ has_account "new@x.com"
       (outside (final (run (signUp configured "new@x.com" "demo123" "A" "B")
                          (fresh ∅ stale_row_backend)))).
Proof.
  pose (meta := signUp_meta "new@x.com" "A" "B").
  pose (row := signUp_row "user-0" "new@x.com" "A" "B").
  pose (a1 := respond (SupabaseSignUp "new@x.com" "demo123" meta) stale_row_backend).
  pose (a2 := respond (SignIn "new@x.com" "demo123") (snd a1)).
  pose (a3 := respond (CreateUserProfile row) (snd a2)).
  assert (Hid : uid {| uid := "user-0" |} <> EmptyString) by discriminate.
  destruct (signUp_profile_failure_not_rolled_back configured
              "new@x.com" "demo123" "A" "B" (fresh ∅ stale_row_backend)
              (fst a1) (fst a2) (fst a3) {| uid := "user-0" |}
              {| message := "duplicate key value violates unique constraint" |}
              (snd a1) (snd a2) (snd a3)
              eq_refl eq_refl eq_refl eq_refl Hid eq_refl eq_refl eq_refl eq_refl)
    as [Hrun [_ Hkept]].
  split; [reflexivity |].
  split; [rewrite Hrun; reflexivity |].
  split; [rewrite Hrun; reflexivity |].
  apply (Hkept (has_account "new@x.com")).
  - eexists. reflexivity.
  - intros r [a Ha]. exists a. unfold has_account, account_of in *.
    change (respond (SignIn "new@x.com" "demo123") r)
      with (signIn "new@x.com" "demo123" r).
    rewrite signIn_keeps_accounts. exact Ha.
  - intros row' r [a Ha]. exists a. unfold has_account, account_of in *.
    change (respond (CreateUserProfile row') r) with (insertRow row' r).
    rewrite insertRow_keeps_accounts. exact Ha.
Defined.

(** C10 on the in-memory provider with an empty table. *)
Lemma signUp_success_witness :
  isSupabaseConfigured configured = true
  /\ outcome (run (signUp configured "new@x.com" "pw" "A" "B")
                (fresh ∅ empty_backend)) = Returned tt
  /\ state (final (run (signUp configured "new@x.com" "pw" "A" "B")
                     (fresh ∅ empty_backend)))
     = {| user := JNull; authUser := None; isLoading := true; error := None |}.
Proof.
  pose (meta := signUp_meta "new@x.com" "A" "B").
  pose (row := signUp_row "user-0" "new@x.com" "A" "B").
  pose (a1 := respond (SupabaseSignUp "new@x.com" "pw" meta) empty_backend).
  pose (a2 := respond (SignIn "new@x.com" "pw") (snd a1)).
  pose (a3 := respond (CreateUserProfile row) (snd a2)).
  assert (Hid : uid {| uid := "user-0" |} <> EmptyString) by discriminate.
  destruct (signUp_success_leaves_loading configured
              "new@x.com" "pw" "A" "B" (fresh ∅ empty_backend)
              (fst a1) (fst a2) (fst a3) {| uid := "user-0" |}
              (snd a1) (snd a2) (snd a3)
              eq_refl eq_refl eq_refl eq_refl Hid eq_refl eq_refl eq_refl eq_refl)
    as [Hrun _].
  split; [reflexivity |]. rewrite Hrun. split; reflexivity.
Defined.

(** C5 on the in-memory provider: a member with the demo password and an
    unconfirmed address, which is not in the catalogue. *)
Lemma login_provider_failure_witness :
  isSupabaseConfigured configured = true
  /\ (if String.eqb "demo123" "demo123"
      then demoUsers_at configured "real@x.com" else None) = None
  /\ outcome (run (login configured "real@x.com" "demo123") (fresh ∅ pending_backend))
     = Threw (JsError "Email not confirmed")
  /\ error (state (final (run (login configured "real@x.com" "demo123")
                            (fresh ∅ pending_backend))))
     = Some "Email not confirmed".
Proof.
  pose (a := respond (SignIn "real@x.com" "demo123") pending_backend).
  destruct (login_provider_failure configured "real@x.com" "demo123"
              (fresh ∅ pending_backend) (fst a)
              {| message := "Email not confirmed" |} (snd a)
              eq_refl eq_refl) as [_ [Hlogin _]].
  destruct (Hlogin eq_refl eq_refl) as [_ [_ [Hout [Herr _]]]].
  split; [reflexivity |]. split; [reflexivity |].
  split; [exact Hout | exact Herr].
Defined.

(** The demo branch of the [try] block is entered when it is run on the demo
    credentials against a provider that knows the address as unconfirmed. *)
Example loginWithProvider_unconfirmed_demo :
  let done := run (loginWithProvider configured "coach@demo.com" "demo123")
                (fresh ∅ unconfirmed_backend) in
  outcome done = Returned tt
  /\ user (state (final done)) = toJS (demoCoach configured)
  /\ localStorage (final done) !! "demoUser"
     = Some (JSON_stringify (toJS (demoCoach configured))).
Proof. vm_compute. repeat split. Qed.

(** C7 (as the code has it) on the in-memory clock. *)
Lemma signUp_unconfigured_witness :
  isSupabaseConfigured unconfigured = false
  /\ outcome (run (signUp unconfigured "a@x.com" "pw" "Ann" "Lee")
                (fresh ∅ same_instant_backend)) = Returned tt
  /\ prop "id" (user (state (final
       (run (signUp unconfigured "a@x.com" "pw" "Ann" "Lee")
          (fresh ∅ same_instant_backend)))))
     = Some (JStr "demo-1753833600000").
Proof.
  destruct (signUp_unconfigured_profile unconfigured "a@x.com" "pw" "Ann" "Lee"
              (fresh ∅ same_instant_backend) eq_refl)
    as [Hout [_ [_ [_ [_ [Hid _]]]]]].
  split; [reflexivity |]. split; [exact Hout | exact Hid].
Defined.

(** C7 as stated fails: two calls that read the same [Date.now()] synthesise
    the same id. *)
Lemma signUp_ids_can_coincide :
  let first := run (signUp unconfigured "a@x.com" "pw" "Ann" "Lee")
                 (fresh ∅ same_instant_backend) in
  let second := run (signUp unconfigured "b@x.com" "pw" "Bob" "Ray") (final first) in
  outcome first = Returned tt
  /\ outcome second = Returned tt
  /\ prop "id" (user (state (final first))) = Some (JStr "demo-1753833600000")
  /\ prop "id" (user (state (final second))) = Some (JStr "demo-1753833600000").
Proof. vm_compute. repeat split. Qed.

(** C4 (as the code has it) with no provider configured: a sign-up, a demo
    login of the catalogue, a login under the name of an inherited member
    (the slot then holds the text of [undefined]), and a login with the demo
    password under an address that [demoUsers] does not have. *)
Lemma unconfigured_login_and_signUp_witness :
  isSupabaseConfigured unconfigured = false
  /\ outcome (run (signUp unconfigured "a@x.com" "pw" "Ann" "Lee")
                (fresh ∅ empty_backend)) = Returned tt
  /\ outcome (run (login unconfigured "admin@demo.com" "demo123")
                (fresh ∅ empty_backend)) = Returned tt
  /\ outcome (run (login unconfigured "constructor" "demo123")
                (fresh ∅ empty_backend)) = Returned tt
  /\ localStorage (final (run (login unconfigured "constructor" "demo123")
                             (fresh ∅ empty_backend))) !! "demoUser"
     = Some "undefined"
  /\ outcome (run (login unconfigured "unknown@x.com" "demo123")
                (fresh ∅ empty_backend))
     = Threw (JsError "Supabase credentials are not configured.").
Proof.
  destruct (unconfigured_login_and_signUp (R := Backend) unconfigured eq_refl)
    as [Hsign [Hlogin _]].
  pose proof (Hlogin "admin@demo.com" "demo123" (fresh ∅ empty_backend)) as Ha.
  pose proof (Hlogin "constructor" "demo123" (fresh ∅ empty_backend)) as Hc.
  pose proof (Hlogin "unknown@x.com" "demo123" (fresh ∅ empty_backend)) as Hu.
  cbv zeta in Ha, Hc, Hu.
  assert (Hat : (if String.eqb "demo123" "demo123"
                 then demoUsers_at unconfigured "admin@demo.com" else None)
                = Some (Data (toJS (demoAdmin unconfigured)))) by reflexivity.
  assert (Hct : (if String.eqb "demo123" "demo123"
                 then demoUsers_at unconfigured "constructor" else None)
                = Some (Inherited "constructor")) by reflexivity.
  assert (Hut : (if String.eqb "demo123" "demo123"
                 then demoUsers_at unconfigured "unknown@x.com" else None)
                = None) by reflexivity.
  rewrite Hat in Ha. rewrite Hct in Hc. rewrite Hut in Hu.
  destruct Ha as [Ha _].
  destruct Hc as [Hc [_ [_ [_ [_ [_ [Hslot _]]]]]]].
  split; [reflexivity |]. split; [apply Hsign |].
  split; [exact Ha |]. split; [exact Hc |].
  split; [rewrite Hslot; apply lookup_insert_eq |].
  rewrite Hu. reflexivity.
Defined.

(** C4 as stated fails: with no provider configured, a [login] that is not a
    demo login throws, and the message names the missing configuration. *)
Lemma unconfigured_login_throws :
  isSupabaseConfigured unconfigured = false
  /\ outcome (run (login unconfigured "unknown@x.com" "wrong") (fresh ∅ empty_backend))
     = Threw (JsError "Supabase credentials are not configured.")
  /\ error (state (final (run (login unconfigured "unknown@x.com" "wrong")
                            (fresh ∅ empty_backend))))
     = Some "Supabase credentials are not configured.".
Proof. vm_compute. repeat split. Qed.

(** C8 (as the code has it) on a slot that holds an opening brace only. *)
Lemma mount_unparsable_slot_witness :
  ({[ "demoUser" := "{" ]} : gmap string string) !! "demoUser" = Some "{"
  /\ JSON_parse "{" = None
  /\ outcome (run mount (fresh {[ "demoUser" := "{" ]} empty_backend)) = Returned tt
  /\ localStorage (final (run mount (fresh {[ "demoUser" := "{" ]} empty_backend)))
     !! "demoUser" = None
  /\ Unauthenticated
       (state (final (run mount (fresh {[ "demoUser" := "{" ]} empty_backend)))).
Proof.
  assert (Hne : "{" <> EmptyString) by discriminate.
  assert (Hparse : JSON_parse "{" = None) by (vm_compute; reflexivity).
  assert (Hslot : ({[ "demoUser" := "{" ]} : gmap string string) !! "demoUser"
                  = Some "{") by apply lookup_singleton_eq.
  destruct (mount_unparsable_slot "{" {[ "demoUser" := "{" ]} empty_backend
              Hslot Hne Hparse) as [Hout [_ [Hgone [_ Hno]]]].
  destruct (Hno eq_refl) as [_ [_ Hun]].
  split; [exact Hslot |]. split; [exact Hparse |].
  split; [exact Hout |]. split; [exact Hgone | exact Hun].
Defined.

(** C8 as stated fails: a slot holding the text of an empty object parses,
    is no profile, and yet is kept and shown as the user. *)
Lemma mount_keeps_parsable_non_profile :
  let done := run mount (fresh {[ "demoUser" := "{}" ]} empty_backend) in
  readProfile "{}" = None
  /\ outcome done = Returned tt
  /\ localStorage (final done) !! "demoUser" = Some "{}"
  /\ user (state (final done)) = JObj []
  /\ ~ Unauthenticated (state (final done)).
Proof.
  vm_compute. repeat split. intros [Hu _]. discriminate Hu.
Qed.

(** C3 as stated fails: the world above is reachable, shows the demo profile
    held by the slot, and has an identity. *)
Lemma demo_profile_with_identity :
  reachable configured mixed_world
  /\ DemoActive mixed_world
  /\ user (state mixed_world) = toJS (demoCoach configured)
  /\ authUser (state mixed_world) = Some {| uid := "user-0" |}.
Proof.
  split.
  - unfold mixed_world. apply reachable_play. apply reach_mount.
  - split; [split |].
    + vm_compute. discriminate.
    + eexists. split; vm_compute; reflexivity.
    + vm_compute. split; reflexivity.
Qed.

(** C3 (as the code has it) at the same world: it has an identity, and it is
    indeed a world whose mount subscribed the handler. *)
Lemma identity_only_from_provider_paths_witness :
  reachable configured mixed_world
  /\ authUser (state mixed_world) <> None
  /\ subscribed mixed_world = true.
Proof.
  assert (Hreach : reachable configured mixed_world).
  { unfold mixed_world. apply reachable_play. apply reach_mount. }
  assert (Hid : authUser (state mixed_world) <> None).
  { vm_compute. discriminate. }
  split; [exact Hreach |]. split; [exact Hid |].
  exact (proj1 (identity_only_from_provider_paths configured) mixed_world Hreach Hid).
Defined.

(** * Further properties of the component *)

Section Further.
Context {R : Type} `{Env R} (cfg : Config).

Lemma parse_empty : JSON_parse EmptyString = None.
Proof. reflexivity. Qed.

Lemma parsed_not_empty (content : string) (v : JSValue) :
  JSON_parse content = Some v -> content <> EmptyString.
Proof. intros Hp ->. rewrite parse_empty in Hp. discriminate Hp. Qed.

(** X1: [loadUserProfile] never throws and always ends with [isLoading]
    false, after exactly one [getUserProfile] call.  A reply with an error
    puts ["Failed to load user profile"] in [error] and leaves [user]; a
    reply with data and no error puts the data in [user] and leaves [error]
    (an older message is not cleared); a reply with neither changes nothing
    but [isLoading]: a missing row is not reported. *)
Theorem loadUserProfile_outcomes (userId : string) (w : World R) :
  let reply := fst (respond (GetUserProfile userId) (outside w)) in
  let done := run (loadUserProfile userId) w in
  outcome done = Returned tt
  /\ network (events done) = [ Called (GetUserProfile userId) reply ]
  /\ state (final done) =
       match Reply.error reply, Reply.data reply with
       | Some _, _ =>
           {| user := user (state w); authUser := authUser (state w);
              isLoading := false; error := Some "Failed to load user profile" |}
       | None, Some data =>
           {| user := toJS data; authUser := authUser (state w);
              isLoading := false; error := error (state w) |}
       | None, None =>
           {| user := user (state w); authUser := authUser (state w);
              isLoading := false; error := error (state w) |}
       end
  /\ localStorage (final done) = localStorage w
  /\ subscribed (final done) = subscribed w
  /\ outside (final done) = snd (respond (GetUserProfile userId) (outside w)).
Proof.
  intros reply done. subst done. unfold loadUserProfile. exec. fold reply.
  destruct (Reply.error reply) as [e |]; exec.
  - repeat split.
  - destruct (Reply.data reply) as [d |]; exec; repeat split.
Qed.

(** X2: the change handler called with a session sets [authUser] to the
    user of the session, asks for the profile of that user (its only call),
    and ends with [isLoading] false.  It never touches [localStorage], so a
    [demoUser] slot written earlier survives it, and it never clears
    [error]: [error] afterwards is the load failure message or what it was
    before. *)
Theorem session_established_loads (event : string) (s : Session) (w : World R) :
  let reply := fst (respond (GetUserProfile (uid (session_user s))) (outside w)) in
  let done := run (onAuthStateChange event (Some s)) w in
  outcome done = Returned tt
  /\ network (events done) = [ Called (GetUserProfile (uid (session_user s))) reply ]
  /\ authUser (state (final done)) = Some (session_user s)
  /\ isLoading (state (final done)) = false
  /\ localStorage (final done) = localStorage w
  /\ error (state (final done)) =
       match Reply.error reply with
       | Some _ => Some "Failed to load user profile"
       | None => error (state w)
       end
  /\ user (state (final done)) =
       match Reply.error reply, Reply.data reply with
       | None, Some data => toJS data
       | _, _ => user (state w)
       end.
Proof.
  intros reply done. subst done. unfold onAuthStateChange, loadUserProfile.
  exec. fold reply.
  destruct (Reply.error reply) as [e |]; exec.
  - repeat split.
  - destruct (Reply.data reply) as [d |]; exec; repeat split.
Qed.

(** X3: when the [demoUser] slot is absent or holds the empty string, the
    mount effect leaves [localStorage] as it is (an empty-string slot is not
    removed), subscribes the change handler and asks the provider for the
    session, never throwing.  With no session the component ends with
    [user] and [authUser] null, [isLoading] false and no error; with a
    session [authUser] is its user and [isLoading] ends false. *)
Theorem mount_without_demo_slot (ls : gmap string string) (r : R) :
  truthy (ls !! "demoUser") = false ->
  let reply := fst (respond GetSession r) in
  let done := run mount (fresh ls r) in
  outcome done = Returned tt
  /\ localStorage (final done) = ls
  /\ subscribed (final done) = true
  /\ isLoading (state (final done)) = false
  /\ match Reply.data reply with
     | None =>
         events done = [ Did (GetItem "demoUser") (ls !! "demoUser");
                         Did OnAuthStateChange tt;
                         Called GetSession reply;
                         Did (SetIsLoading false) tt ]
         /\ state (final done) =
              {| user := JNull; authUser := None; isLoading := false;
                 error := None |}
     | Some s =>
         authUser (state (final done)) = Some (session_user s)
         /\ network (events done) =
              [ Called GetSession reply;
                Called (GetUserProfile (uid (session_user s)))
                  (fst (respond (GetUserProfile (uid (session_user s)))
                          (snd (respond GetSession r)))) ]
     end.
Proof.
  intros Hslot reply done. subst done.
  unfold mount, restoreSession, loadUserProfile, fresh, initialState. exec.
  destruct (ls !! "demoUser") as [content |]; cbn [truthy] in Hslot |- *.
  - rewrite Hslot. exec. fold reply.
    destruct (Reply.data reply) as [s |]; exec; [| repeat split].
    destruct (Reply.error _); exec; [repeat split |].
    destruct (Reply.data _); exec; repeat split.
  - exec. fold reply.
    destruct (Reply.data reply) as [s |]; exec; [| repeat split].
    destruct (Reply.error _); exec; [repeat split |].
    destruct (Reply.data _); exec; repeat split.
Qed.

(** X4: whatever the [demoUser] slot holds, if [JSON.parse] accepts it the
    mount effect hands the parsed value to [setUser], clears [isLoading] and
    stops there: the slot is kept, no provider call is made, the change
    handler is not subscribed and [authUser] stays null. *)
Theorem mount_parsable_slot
  (content : string) (v : JSValue) (ls : gmap string string) (r : R) :
  ls !! "demoUser" = Some content ->
  JSON_parse content = Some v ->
  run mount (fresh ls r) =
    {| outcome := Returned tt;
       events := [ Did (GetItem "demoUser") (Some content);
                   Did (SetUser v) tt;
                   Did (SetIsLoading false) tt ];
       final :=
         {| state := {| user := v; authUser := None;
                        isLoading := false; error := None |};
            localStorage := ls;
            subscribed := false;
            outside := r |} |}.
Proof.
  intros Hslot Hparse. unfold mount, parse, fresh, initialState. exec.
  rewrite Hslot. cbn [truthy].
  pose proof (parsed_not_empty content v Hparse) as Hne.
  apply String.eqb_neq in Hne. rewrite Hne. cbn [negb]. rewrite Hparse.
  exec. reflexivity.
Qed.

(** X5: a demo login survives a reload.  For every address [E] of the
    catalogue, mounting a fresh component over the storage left by
    [login(E, "demo123")] restores exactly the catalogue entry as [user],
    without any provider call and without subscribing the handler. *)
Theorem demo_login_survives_reload
  (E : string) (p : UserProfile) (w : World R) (r : R) :
  demoUsers cfg !! E = Some p ->
  let stored := localStorage (final (run (login cfg E "demo123") w)) in
  let done := run mount (fresh stored r) in
  user (state (final done)) = toJS p
  /\ fromJS (user (state (final done))) = Some p
  /\ isLoading (state (final done)) = false
  /\ network (events done) = []
  /\ subscribed (final done) = false.
Proof.
  intros Hp stored done.
  assert (Hstored : stored !! "demoUser" = Some (JSON_stringify (toJS p))).
  { subst stored. unfold login.
    rewrite String.eqb_refl, (demoUsers_at_own cfg E p Hp). unfold enterDemo.
    exec. apply lookup_insert_eq. }
  subst done.
  rewrite (mount_restores_demo p stored r Hstored (demoUsers_no_gym cfg E p Hp)).
  cbn [final events state user isLoading subscribed].
  split; [reflexivity |]. split; [apply fromJS_toJS |]. repeat split.
Qed.

(** X6: a sign-up made with no provider configured survives a reload,
    whatever the strings given for address and names (quotes, backslashes
    and control characters included): mounting a fresh component over the
    storage it left restores the synthesised profile, with role [gymnast],
    no gym and the given address and names. *)
Theorem unconfigured_signUp_survives_reload
  (email password firstName lastName : string) (w : World R) (r : R) :
  isSupabaseConfigured cfg = false ->
  let first := run (signUp cfg email password firstName lastName) w in
  let done := run mount (fresh (localStorage (final first)) r) in
  user (state (final done)) = user (state (final first))
  /\ network (events done) = []
  /\ exists p,
       fromJS (user (state (final done))) = Some p
       /\ Profile.email p = email
       /\ Profile.first_name p = firstName
       /\ Profile.last_name p = lastName
       /\ Profile.role p = gymnast
       /\ Profile.gym_id p = None.
Proof.
  intros Hcfg first done. subst done first.
  rewrite (signUp_unconfigured_run cfg _ _ _ _ _ Hcfg).
  cbn [final localStorage state user].
  set (p := synthesized _ _ _ _ _ _).
  rewrite (mount_restores_demo p _ r (lookup_insert_eq _ _ _) eq_refl).
  cbn [final events state user].
  split; [reflexivity |]. split; [reflexivity |].
  exists p. split; [apply fromJS_toJS |]. repeat split.
Qed.

End Further.

Section FurtherOperations.
Context {R : Type} `{Env R} (cfg : Config).

Ltac thrown := eexists; split; [reflexivity |]; split; reflexivity.

(** X7: [login] and [signUp] keep the thrown error and the [error] state in
    step.  Whenever one of them throws, what it throws is an [Error] whose
    message is exactly what [error] then holds, [isLoading] is false, and
    [user], [authUser] and [localStorage] are as they were before the call;
    whenever one of them returns normally, [error] is null. *)
Theorem rejection_matches_error :
  (forall (email password : string) (w : World R),
      let done := run (login cfg email password) w in
      match outcome done with
      | Threw t =>
          exists msg, t = JsError msg
            /\ state (final done) =
                 {| user := user (state w); authUser := authUser (state w);
                    isLoading := false; error := Some msg |}
            /\ localStorage (final done) = localStorage w
      | Returned _ => error (state (final done)) = None
      end)
  /\ (forall (email password firstName lastName : string) (w : World R),
        let done := run (signUp cfg email password firstName lastName) w in
        match outcome done with
        | Threw t =>
            exists msg, t = JsError msg
              /\ state (final done) =
                   {| user := user (state w); authUser := authUser (state w);
                      isLoading := false; error := Some msg |}
              /\ localStorage (final done) = localStorage w
        | Returned _ => error (state (final done)) = None
        end).
Proof.
  split.
  - intros email password w. cbv zeta. unfold login, loginWithProvider, enterDemo.
    destruct (if String.eqb password "demo123" then demoUsers_at cfg email else None)
      as [p |]; [exec; reflexivity |].
    destruct (isSupabaseConfigured cfg); exec; [| thrown].
    destruct (Reply.error _) as [e |]; exec; [| reflexivity].
    destruct (if includes (message e) "Email not confirmed"
                 && String.eqb password "demo123"
              then demoUsers_at cfg email else None) as [p |]; exec;
      [reflexivity | thrown].
  - intros email password firstName lastName w. cbv zeta.
    unfold signUp, signUpWithProvider.
    destruct (isSupabaseConfigured cfg); exec; [| reflexivity].
    destruct (Reply.error _) as [e1 |]; exec; [thrown |].
    destruct (Reply.data _) as [u |]; cbn [option_map truthy]; exec; [| thrown].
    destruct (negb _); exec; [| thrown].
    destruct (Reply.error _) as [e2 |]; exec; [thrown |].
    destruct (Reply.error _) as [e3 |]; exec; [thrown | reflexivity].
Qed.

(** X8: with a provider configured and credentials on which the demo check
    finds nothing (the password is not the demo password, or
    [demoUsers[email]] is undefined: the address is neither in the catalogue
    nor the name of an inherited member), a sign-in that the provider
    accepts makes [login] return normally with [isLoading] still true and
    [error] null; [user], [authUser] and [localStorage] are untouched and
    the sign-in is the only call.  The profile is not loaded by [login]. *)
Theorem login_success_defers_to_handler
  (email password : string) (w : World R)
  (rep : Reply (option Session)) (r' : R) :
  isSupabaseConfigured cfg = true ->
  (if String.eqb password "demo123" then demoUsers_at cfg email else None) = None ->
  respond (SignIn email password) (outside w) = (rep, r') ->
  Reply.error rep = None ->
  run (login cfg email password) w =
    {| outcome := Returned tt;
       events := [ Did (SetIsLoading true) tt;
                   Did (SetError None) tt;
                   Called (SignIn email password) rep ];
       final :=
         {| state := {| user := user (state w); authUser := authUser (state w);
                        isLoading := true; error := None |};
            localStorage := localStorage w;
            subscribed := subscribed w;
            outside := r' |} |}.
Proof.
  intros Hcfg Hdemo Hr He. unfold login, loginWithProvider.
  rewrite Hdemo, Hcfg. exec. rewrite Hr. exec. rewrite He. exec. reflexivity.
Qed.

(** X9: with a provider configured, the calls [signUp] makes are a prefix of
    account creation, sign-in, profile insertion, in this order and each at
    most once, each answered by the provider as the previous call left it.
    The sign-in is attempted only after an account creation without error
    that returned a user with a non-empty id, the insertion only after a
    sign-in without error, and the inserted row carries that user id, the
    given address and names and the role [gymnast].  [signUp] returns
    normally exactly when all three were made and the insertion had no
    error; in every other case it throws. *)
Theorem signUp_call_discipline
  (email password firstName lastName : string) (w : World R) :
  isSupabaseConfigured cfg = true ->
  let done := run (signUp cfg email password firstName lastName) w in
  let c1 := SupabaseSignUp email password (signUp_meta email firstName lastName) in
  let c2 := SignIn email password in
  let rep1 := fst (respond c1 (outside w)) in
  let rep2 := fst (respond c2 (snd (respond c1 (outside w)))) in
  (network (events done) = [ Called c1 rep1 ]
   /\ (exists t, outcome done = Threw t)
   /\ (Reply.error rep1 <> None
       \/ truthy (option_map uid (Reply.data rep1)) = false))
  \/ (exists u,
        network (events done) = [ Called c1 rep1; Called c2 rep2 ]
        /\ (exists t, outcome done = Threw t)
        /\ Reply.error rep1 = None
        /\ Reply.data rep1 = Some u /\ uid u <> EmptyString
        /\ Reply.error rep2 <> None)
  \/ (exists u,
        let c3 := CreateUserProfile (signUp_row (uid u) email firstName lastName) in
        let rep3 :=
          fst (respond c3 (snd (respond c2 (snd (respond c1 (outside w)))))) in
        network (events done) = [ Called c1 rep1; Called c2 rep2; Called c3 rep3 ]
        /\ Reply.error rep1 = None
        /\ Reply.data rep1 = Some u /\ uid u <> EmptyString
        /\ Reply.error rep2 = None
        /\ (outcome done = Returned tt <-> Reply.error rep3 = None)
        /\ (Reply.error rep3 <> None -> exists t, outcome done = Threw t)).
Proof.
  intros Hcfg done c1 c2 rep1 rep2. subst done c1 c2 rep1 rep2.
  unfold signUp, signUpWithProvider. rewrite Hcfg. exec.
  fold (signUp_meta email firstName lastName).
  set (a1 := respond (SupabaseSignUp email password
                        (signUp_meta email firstName lastName)) (outside w)).
  destruct (Reply.error (fst a1)) as [e1 |] eqn:He1; exec.
  { left. split; [reflexivity |]. split; [eauto |]. left. discriminate. }
  destruct (Reply.data (fst a1)) as [u |] eqn:Hd1; cbn [option_map truthy]; exec.
  2:{ left. split; [reflexivity |]. split; [eauto |]. right. reflexivity. }
  destruct (negb (String.eqb (uid u) EmptyString)) eqn:Hid; exec.
  2:{ left. split; [reflexivity |]. split; [eauto |]. right. reflexivity. }
  assert (Hne : uid u <> EmptyString).
  { apply String.eqb_neq. apply negb_true_iff. exact Hid. }
  set (a2 := respond (SignIn email password) (snd a1)).
  destruct (Reply.error (fst a2)) as [e2 |] eqn:He2; exec.
  { right. left. exists u. split; [reflexivity |]. split; [eauto |].
    split; [reflexivity |]. split; [reflexivity |]. split; [exact Hne |].
    discriminate. }
  right. right. exists u. cbv zeta.
  fold (signUp_row (uid u) email firstName lastName).
  set (a3 := respond (CreateUserProfile
                        (signUp_row (uid u) email firstName lastName)) (snd a2)).
  destruct (Reply.error (fst a3)) as [e3 |] eqn:He3; exec.
  - split; [reflexivity |]. split; [reflexivity |]. split; [reflexivity |].
    split; [exact Hne |]. split; [reflexivity |]. split.
    + split; intros Hx; discriminate Hx.
    + intros _. eauto.
  - split; [reflexivity |]. split; [reflexivity |]. split; [reflexivity |].
    split; [exact Hne |]. split; [reflexivity |]. split.
    + split; reflexivity.
    + intros Hx. exfalso. apply Hx. reflexivity.
Qed.

(** X10: when account creation answers without error but without a usable
    user id (no user, or an empty id), [signUp] throws
    ["Sign up succeeded but no user ID returned"], shows it in [error] and
    does not attempt to sign in; whatever the creation call did outside
    stays done. *)
Theorem signUp_without_user_id
  (email password firstName lastName : string) (w : World R)
  (rep1 : Reply (option AuthUser)) (r1 : R) :
  isSupabaseConfigured cfg = true ->
  respond (SupabaseSignUp email password (signUp_meta email firstName lastName))
    (outside w) = (rep1, r1) ->
  Reply.error rep1 = None ->
  truthy (option_map uid (Reply.data rep1)) = false ->
  run (signUp cfg email password firstName lastName) w =
    {| outcome := Threw (JsError "Sign up succeeded but no user ID returned");
       events :=
         [ Did (SetIsLoading true) tt;
           Did (SetError None) tt;
           Called (SupabaseSignUp email password
                     (signUp_meta email firstName lastName)) rep1;
           Did (SetError (Some "Sign up succeeded but no user ID returned")) tt;
           Did (SetIsLoading false) tt ];
       final :=
         {| state := {| user := user (state w); authUser := authUser (state w);
                        isLoading := false;
                        error := Some "Sign up succeeded but no user ID returned" |};
            localStorage := localStorage w;
            subscribed := subscribed w;
            outside := r1 |} |}.
Proof.
  intros Hcfg H1 He1 Hid. unfold signUp, signUpWithProvider. rewrite Hcfg. exec.
  fold (signUp_meta email firstName lastName). rewrite H1. exec. rewrite He1.
  destruct (Reply.data rep1) as [u |]; cbn [option_map truthy] in Hid |- *.
  - rewrite Hid. exec. reflexivity.
  - exec. reflexivity.
Qed.

(** Neither [logout] nor an undelivered notification clears [isLoading]. *)
Lemma passive_keeps_loading (acts : list Action) (w : World R) :
  Forall (fun a => passive a = true) acts ->
  subscribed w = false ->
  isLoading (state (play cfg acts w)) = isLoading (state w)
  /\ subscribed (play cfg acts w) = false.
Proof.
  revert w. induction acts as [| a rest IH]; intros w Hall Hsub; cbn [play].
  - split; [reflexivity | exact Hsub].
  - inversion Hall as [| ? ? Ha Hrest]; subst.
    destruct a as [? ? | ? ? ? ? | | event session]; cbn [passive] in Ha;
      try discriminate Ha; cbn [enabled program].
    + destruct (IH (final (run logout w)) Hrest) as [Hl Hs].
      { rewrite (proj2 (logout_frame w)). exact Hsub. }
      split; [| exact Hs]. rewrite Hl. unfold logout. exec.
      destruct (Reply.error _); exec; reflexivity.
    + rewrite Hsub. apply IH; assumption.
Qed.

(** X11: a component that restored a demo slot at mount never subscribed the
    change handler, so a later provider sign-in that succeeds leaves it
    loading for good as far as notifications and [logout] go: after a
    [login] that went to the provider (the demo check found nothing) and was
    accepted, [isLoading] is true, and it stays true through any sequence of
    [logout] calls and notifications (which do not reach the component). *)
Theorem loading_never_ends_without_subscription
  (content : string) (v : JSValue) (ls : gmap string string) (r r' : R)
  (email password : string) (rep : Reply (option Session)) :
  ls !! "demoUser" = Some content ->
  JSON_parse content = Some v ->
  isSupabaseConfigured cfg = true ->
  (if String.eqb password "demo123" then demoUsers_at cfg email else None) = None ->
  respond (SignIn email password) r = (rep, r') ->
  Reply.error rep = None ->
  let w1 := final (run (login cfg email password) (final (run mount (fresh ls r)))) in
  reachable cfg w1
  /\ isLoading (state w1) = true
  /\ forall acts : list Action,
       Forall (fun a => passive a = true) acts ->
       isLoading (state (play cfg acts w1)) = true.
Proof.
  intros Hslot Hparse Hcfg Hdemo Hr He w1.
  assert (Hmount : final (run mount (fresh ls r)) =
            {| state := {| user := v; authUser := None;
                           isLoading := false; error := None |};
               localStorage := ls; subscribed := false; outside := r |}).
  { unfold mount, parse, fresh, initialState. exec. rewrite Hslot. cbn [truthy].
    pose proof (parsed_not_empty content v Hparse) as Hne.
    apply String.eqb_neq in Hne. rewrite Hne. cbn [negb]. rewrite Hparse.
    exec. reflexivity. }
  assert (Hw1 : isLoading (state w1) = true /\ subscribed w1 = false).
  { subst w1. rewrite Hmount. unfold login, loginWithProvider.
    rewrite Hdemo, Hcfg. exec. rewrite Hr. exec. rewrite He. exec.
    split; reflexivity. }
  split.
  - subst w1. apply (reach_step cfg _ (Login email password));
      [apply reach_mount | reflexivity].
  - split; [apply Hw1 |]. intros acts Hall.
    destruct (passive_keeps_loading acts w1 Hall (proj2 Hw1)) as [Hl _].
    rewrite Hl. apply Hw1.
Qed.

End FurtherOperations.

(** * Properties of the data hooks *)

Section HookProperties.
Import Hooks.
Context {T : Type} (id : T -> string).

(** The state after a series of fetches, one database answer per fetch. *)
Lemma fetchWith_error (fallback : string) (q : Query) (db : Query -> Answer T)
  (s : State T) :
  error (fetchWith fallback q db s) =
    match db q with
    | Rows _ => error s
    | Raised err => Some (match err with JsError msg => msg | JsOther => fallback end)
    end.
Proof. unfold fetchWith. destruct (db q); reflexivity. Qed.

(** X12: the fetch functions of the hooks never clear [error].  Through any
    series of refetches (each against its own database answer), once [error]
    is set it stays set, even when later fetches succeed and replace the
    rows; [loading] is false after every fetch; a fetch that fails leaves
    the rows it had, and a fetch that succeeds with [data = null] leaves the
    empty list. *)
Theorem fetch_error_is_sticky (fallback : string) (q : Query)
  (dbs : list (Query -> Answer T)) (s : State T) :
  let refetch := fun s db => fetchWith fallback q db s in
  (error s <> None -> error (fold_left refetch dbs s) <> None)
  /\ (dbs <> [] -> loading (fold_left refetch dbs s) = false)
  /\ (forall db,
        match db q with
        | Rows (Some l) => rows (refetch s db) = l /\ error (refetch s db) = error s
        | Rows None => rows (refetch s db) = [] /\ error (refetch s db) = error s
        | Raised _ => rows (refetch s db) = rows s /\ error (refetch s db) <> None
        end).
Proof.
  intros refetch. split; [| split].
  - revert s. induction dbs as [| db rest IH]; intros s Hs; cbn [fold_left].
    + exact Hs.
    + apply IH. subst refetch. cbv beta. rewrite fetchWith_error.
      destruct (db q); [exact Hs | discriminate].
  - intros Hne. destruct dbs as [| db rest]; [congruence |]. clear Hne.
    cbn [fold_left].
    assert (Hfirst : loading (refetch s db) = false) by reflexivity.
    revert Hfirst. generalize (refetch s db). clear s db.
    induction rest as [| db rest IH]; intros s Hs; cbn [fold_left].
    + exact Hs.
    + apply IH. reflexivity.
  - intros db. subst refetch. cbv beta. unfold fetchWith.
    destruct (db q) as [[l |] | err]; cbn; split; try reflexivity. discriminate.
Qed.

(** X13: [fetchGymnasts] does nothing at all for a user without a gym (no
    user, [gym_id] null or empty): whatever the database would answer, the
    state is left as it is, so a hook that starts loading stays loading
    through any number of refetches. *)
Theorem fetchGymnasts_without_gym (gym_id : option string)
  (dbs : list (Query -> Answer T)) (s : State T) :
  truthy gym_id = false ->
  fold_left (fun s db => fetchGymnasts gym_id db s) dbs s = s
  /\ loading (fold_left (fun s db => fetchGymnasts gym_id db s) dbs initial) = true.
Proof.
  intros Hg.
  assert (Hstep : forall (db : Query -> Answer T) (s' : State T),
            fetchGymnasts gym_id db s' = s').
  { intros db s'. unfold fetchGymnasts. destruct gym_id; [rewrite Hg |]; reflexivity. }
  assert (Hall : forall s' : State T, fold_left (fun s db => fetchGymnasts gym_id db s) dbs s' = s').
  { induction dbs as [| db rest IH]; intros s'; cbn [fold_left]; [reflexivity |].
    rewrite Hstep. apply IH. }
  split; [apply Hall |]. rewrite Hall. reflexivity.
Qed.

(** X14: [updateEvent] (and [updateGym], [updateMember]) keeps the length of
    the list and the id at every position; afterwards every row that has the
    id of the given row is the given row; rows with another id are as
    before; when no row has that id the list is unchanged (the row is not
    added); doing it twice is doing it once. *)
Theorem updateRow_properties (row : T) (prev : list T) :
  length (updateRow id row prev) = length prev
  /\ List.map id (updateRow id row prev) = List.map id prev
  /\ (forall e, In e (updateRow id row prev) -> id e = id row -> e = row)
  /\ (forall e, In e prev -> id e <> id row -> In e (updateRow id row prev))
  /\ ((forall e, In e prev -> id e <> id row) -> updateRow id row prev = prev)
  /\ updateRow id row (updateRow id row prev) = updateRow id row prev.
Proof.
  unfold updateRow. repeat split.
  - apply length_map.
  - rewrite List.map_map. apply List.map_ext. intros e.
    destruct (String.eqb (id e) (id row)) eqn:He; [| reflexivity].
    apply String.eqb_eq in He. symmetry. exact He.
  - intros e Hin He. apply List.in_map_iff in Hin as [e0 [Heq Hin]].
    destruct (String.eqb (id e0) (id row)) eqn:H0; [congruence |].
    subst e0. apply String.eqb_neq in H0. contradiction.
  - intros e Hin Hne. apply List.in_map_iff. exists e. split; [| exact Hin].
    apply String.eqb_neq in Hne. rewrite Hne. reflexivity.
  - intros Hall. rewrite <- (List.map_id prev) at 2. apply List.map_ext_in.
    intros e Hin. specialize (Hall e Hin). apply String.eqb_neq in Hall.
    rewrite Hall. reflexivity.
  - rewrite List.map_map. apply List.map_ext. intros e.
    destruct (String.eqb (id e) (id row)) eqn:He.
    + rewrite String.eqb_refl. reflexivity.
    + rewrite He. reflexivity.
Qed.

(** X15: after [removeEvent(id)] (and [removeGym], [removeMember]) no row
    has that id, and the rows with another id are all still there in their
    order; removing an id that no row has changes nothing; removals commute
    and repeating one has no further effect. *)
Theorem removeRow_properties (i j : string) (prev : list T) :
  (forall e, In e (removeRow id i prev) <-> In e prev /\ id e <> i)
  /\ removeRow id i prev = List.filter (fun e => negb (String.eqb (id e) i)) prev
  /\ ((forall e, In e prev -> id e <> i) -> removeRow id i prev = prev)
  /\ removeRow id i (removeRow id i prev) = removeRow id i prev
  /\ removeRow id i (removeRow id j prev) = removeRow id j (removeRow id i prev)
  /\ length (removeRow id i prev) <= length prev.
Proof.
  unfold removeRow. split; [| split; [| split; [| split; [| split]]]].
  - intros e. rewrite List.filter_In, negb_true_iff, String.eqb_neq. reflexivity.
  - reflexivity.
  - intros Hall. induction prev as [| e rest IH]; [reflexivity |].
    cbn [List.filter].
    assert (He : id e <> i) by (apply Hall; left; reflexivity).
    apply String.eqb_neq in He. rewrite He. cbn [negb]. f_equal.
    apply IH. intros e' Hin. apply Hall. right. exact Hin.
  - induction prev as [| e rest IH]; [reflexivity |]. cbn [List.filter].
    destruct (negb (String.eqb (id e) i)) eqn:He; [| exact IH].
    cbn [List.filter]. rewrite He. f_equal. exact IH.
  - induction prev as [| e rest IH]; [reflexivity |]. cbn [List.filter].
    destruct (negb (String.eqb (id e) j)) eqn:Hj;
      destruct (negb (String.eqb (id e) i)) eqn:Hi;
      cbn [List.filter]; rewrite ?Hj, ?Hi; rewrite IH; reflexivity.
  - induction prev as [| e rest IH]; [reflexivity |]. cbn [List.filter].
    destruct (negb _); cbn [length]; lia.
Qed.

(** X16: [addEvent] (and [addGym], [addMember]) appends without looking at
    ids: every earlier row keeps its position, the added row comes right
    after the last of them, and the list grows by exactly that one row; the
    number of rows with the id of the added row grows by one, also when such
    a row was already there (no replacement, no deduplication).  Adding a
    row and then removing its id gives the earlier list without the rows of
    that id, which for a fresh id is the earlier list itself; updating after
    adding is adding the updated row after updating. *)
Theorem addRow_properties (row : T) (prev : list T) :
  let same := fun e => String.eqb (id e) (id row) in
  length (addRow row prev) = S (length prev)
  /\ (forall k, k < length prev ->
        nth_error (addRow row prev) k = nth_error prev k)
  /\ nth_error (addRow row prev) (length prev) = Some row
  /\ firstn (length prev) (addRow row prev) = prev
  /\ skipn (length prev) (addRow row prev) = [row]
  /\ length (List.filter same (addRow row prev)) = S (length (List.filter same prev))
  /\ removeRow id (id row) (addRow row prev) = removeRow id (id row) prev
  /\ ((forall e, In e prev -> id e <> id row) ->
      removeRow id (id row) (addRow row prev) = prev)
  /\ (forall row',
        updateRow id row' (addRow row prev) =
        addRow (if String.eqb (id row) (id row') then row' else row)
               (updateRow id row' prev)).
Proof.
  intros same. unfold addRow, removeRow, updateRow.
  assert (Hrem : List.filter (fun e => negb (String.eqb (id e) (id row))) (prev ++ [row])
                 = List.filter (fun e => negb (String.eqb (id e) (id row))) prev).
  { rewrite List.filter_app. cbn [List.filter]. rewrite String.eqb_refl.
    cbn [negb]. apply app_nil_r. }
  split; [| split; [| split; [| split; [| split; [| split; [| split; [| split]]]]]]].
  - rewrite length_app. cbn [length]. lia.
  - intros k Hk. apply nth_error_app1. exact Hk.
  - rewrite nth_error_app2 by lia. rewrite Nat.sub_diag. reflexivity.
  - rewrite firstn_app, Nat.sub_diag, firstn_all. cbn [firstn]. apply app_nil_r.
  - rewrite skipn_app, Nat.sub_diag, skipn_all. reflexivity.
  - subst same. rewrite List.filter_app, length_app. cbn [List.filter].
    rewrite String.eqb_refl. cbn [length]. lia.
  - exact Hrem.
  - intros Hall. rewrite Hrem. clear Hrem.
    induction prev as [| e rest IH]; [reflexivity |]. cbn [List.filter].
    assert (He : id e <> id row) by (apply Hall; left; reflexivity).
    apply String.eqb_neq in He. rewrite He. cbn [negb]. f_equal.
    apply IH. intros e' Hin. apply Hall. right. exact Hin.
  - intros row'. rewrite List.map_app. reflexivity.
Qed.

(** X17: [markAsRead(id)], when the update went through, marks exactly the
    notifications with that id as read and changes nothing else.  At every
    position the row is the earlier row itself when its id is another, and
    otherwise a row with [is_read] true and the id, user, creation time and
    remaining columns of the earlier row; so the length and every column
    other than [is_read] are as before, position by position, and a second
    call changes nothing more.  When the update failed or the request was
    rejected the list is left as it was. *)
Theorem markAsRead_properties (i : string) (prev : list Notification) :
  let done := markAsRead i None prev in
  length done = length prev
  /\ (forall k n, nth_error prev k = Some n ->
        exists n',
          nth_error done k = Some n'
          /\ notification_id n' = notification_id n
          /\ user_id n' = user_id n
          /\ created_at n' = created_at n
          /\ other n' = other n
          /\ is_read n' = (if String.eqb (notification_id n) i
                           then true else is_read n))
  /\ (forall k n, nth_error prev k = Some n -> notification_id n <> i ->
        nth_error done k = Some n)
  /\ List.map notification_id done = List.map notification_id prev
  /\ List.map user_id done = List.map user_id prev
  /\ List.map created_at done = List.map created_at prev
  /\ List.map other done = List.map other prev
  /\ (forall n, In n done -> notification_id n = i -> is_read n = true)
  /\ (forall n, In n prev -> notification_id n <> i -> In n done)
  /\ (forall n, In n done -> notification_id n <> i -> In n prev)
  /\ markAsRead i None done = done
  /\ (forall err, markAsRead i (Some err) prev = prev).
Proof.
  intros done. subst done. unfold markAsRead.
  assert (Hcol : forall (C : Type) (col : Notification -> C),
            (forall n, col (read n) = col n) ->
            List.map col
              (List.map (fun n => if String.eqb (notification_id n) i
                                  then read n else n) prev)
            = List.map col prev).
  { intros C col Hread. rewrite List.map_map. apply List.map_ext. intros n.
    destruct (String.eqb (notification_id n) i); [apply Hread | reflexivity]. }
  split; [apply length_map |].
  split.
  { intros k n Hk. rewrite nth_error_map, Hk. cbn [option_map].
    eexists. split; [reflexivity |].
    destruct (String.eqb (notification_id n) i); repeat split. }
  split.
  { intros k n Hk Hne. rewrite nth_error_map, Hk. cbn [option_map].
    apply String.eqb_neq in Hne. rewrite Hne. reflexivity. }
  split; [apply Hcol; reflexivity |].
  split; [apply Hcol; reflexivity |].
  split; [apply Hcol; reflexivity |].
  split; [apply Hcol; reflexivity |].
  split.
  { intros n Hin Hn. apply List.in_map_iff in Hin as [n0 [Heq Hin]].
    destruct (String.eqb (notification_id n0) i) eqn:H0.
    - subst n. reflexivity.
    - subst n0. apply String.eqb_neq in H0. contradiction. }
  split.
  { intros n Hin Hne. apply List.in_map_iff. exists n. split; [| exact Hin].
    apply String.eqb_neq in Hne. rewrite Hne. reflexivity. }
  split.
  { intros n Hin Hne. apply List.in_map_iff in Hin as [n0 [Heq Hin]].
    destruct (String.eqb (notification_id n0) i) eqn:H0.
    - subst n. cbn in Hne. apply String.eqb_eq in H0. contradiction.
    - subst n0. exact Hin. }
  split.
  { rewrite List.map_map. apply List.map_ext. intros n.
    destruct (String.eqb (notification_id n) i) eqn:H0.
    - cbn [read notification_id]. rewrite H0. reflexivity.
    - rewrite H0. reflexivity. }
  reflexivity.
Qed.

End HookProperties.

(** * Properties of the row-level policies *)

Section PolicyProperties.
Import Policies.

(** X18: the policy "Coaches can view gymnasts in their gym" lets a viewer
    see a profile exactly when the viewer has a profile row of role [coach]
    or [gym_admin] whose gym is set and the gym of the target profile is set
    to the same gym.  The role of the target plays no part (the profiles of
    other coaches and administrators of the gym pass too, as does the
    viewer's own), and a profile without gym passes for nobody. *)
Theorem coaches_policy_characterised
  (viewer : option string) (t : gmap string Row) (target : Row) :
  (coaches_can_view viewer t target = true <->
     exists u r g,
       viewer = Some u /\ t !! u = Some r
       /\ (role r = coach \/ role r = gym_admin)
       /\ gym_id r = Some g /\ gym_id target = Some g)
  /\ (forall other : Role,
        coaches_can_view viewer t {| role := other; gym_id := gym_id target |}
        = coaches_can_view viewer t target)
  /\ (gym_id target = None -> coaches_can_view viewer t target = false).
Proof.
  unfold coaches_can_view, can_view_gymnast, row_of.
  split; [| split].
  - split.
    + destruct viewer as [u |]; [| discriminate].
      destruct (t !! u) as [r |] eqn:Hr; [| discriminate].
      destruct (gym_id r) as [g |] eqn:Hg; destruct (gym_id target) as [g' |] eqn:Hg';
        destruct (role r) eqn:Hrole; cbn; try discriminate;
        destruct (String.eqb g g') eqn:Heq; try discriminate;
        intros _; apply String.eqb_eq in Heq; subst g';
        exists u, r, g; rewrite Hrole; auto 6.
    + intros [u [r [g [-> [Hr [Hrole [Hg Hg']]]]]]].
      rewrite Hr, Hg, Hg'. cbn. rewrite String.eqb_refl.
      destruct Hrole as [-> | ->]; reflexivity.
  - intros other. reflexivity.
  - intros Hnone. rewrite Hnone.
    destruct viewer as [u |]; [| reflexivity].
    destruct (t !! u) as [r |]; [| reflexivity].
    destruct (role r), (gym_id r); reflexivity.
Qed.

(** X19: through the two policies of the migration, a viewer whose own
    profile row has role [admin] sees every profile; a viewer who is not
    signed in or has no profile row sees none; and a viewer of role
    [gymnast] sees none, whatever the gyms, not even the own row: what a
    gymnast may read has to come from another policy. *)
Theorem admin_and_gymnast_visibility
  (viewer : option string) (t : gmap string Row) (target : Row) :
  (row_of viewer t = None ->
     admins_can_view viewer t target = false
     /\ coaches_can_view viewer t target = false)
  /\ (forall r, row_of viewer t = Some r ->
        admins_can_view viewer t target
        = match role r with admin => true | _ => false end)
  /\ (forall r, row_of viewer t = Some r -> role r = gymnast ->
        admins_can_view viewer t target = false
        /\ coaches_can_view viewer t target = false).
Proof.
  unfold admins_can_view, coaches_can_view, is_admin, can_view_gymnast.
  split; [| split].
  - intros ->. split; reflexivity.
  - intros r ->. destruct (role r); reflexivity.
  - intros r -> ->. split; [reflexivity |].
    destruct (sql_eq _ _) as [[|] |]; reflexivity.
Qed.

End PolicyProperties.

(** * The further properties on concrete scenarios *)

(** X3 on an empty storage and a provider without session. *)
Lemma mount_without_demo_slot_witness :
  truthy ((∅ : gmap string string) !! "demoUser") = false
  /\ outcome (run mount (fresh ∅ empty_backend)) = Returned tt
  /\ subscribed (final (run mount (fresh ∅ empty_backend))) = true
  /\ isLoading (state (final (run mount (fresh ∅ empty_backend)))) = false.
Proof.
  assert (Hnone : truthy ((∅ : gmap string string) !! "demoUser") = false).
  { rewrite lookup_empty. reflexivity. }
  destruct (mount_without_demo_slot ∅ empty_backend Hnone)
    as [Hout [_ [Hsub [Hload _]]]].
  split; [exact Hnone |]. split; [exact Hout |]. split; [exact Hsub | exact Hload].
Defined.

(** X4 on a slot that holds an empty array. *)
Lemma mount_parsable_slot_witness :
  ({[ "demoUser" := "[]" ]} : gmap string string) !! "demoUser" = Some "[]"
  /\ JSON_parse "[]" = Some (JArr [])
  /\ user (state (final (run mount (fresh {[ "demoUser" := "[]" ]} empty_backend))))
     = JArr []
  /\ subscribed (final (run mount (fresh {[ "demoUser" := "[]" ]} empty_backend)))
     = false.
Proof.
  assert (Hslot : ({[ "demoUser" := "[]" ]} : gmap string string) !! "demoUser"
                  = Some "[]") by apply lookup_singleton_eq.
  assert (Hparse : JSON_parse "[]" = Some (JArr [])) by (vm_compute; reflexivity).
  split; [exact Hslot |]. split; [exact Hparse |].
  rewrite (mount_parsable_slot "[]" (JArr []) _ empty_backend Hslot Hparse).
  split; reflexivity.
Defined.

(** X5 at the gymnast entry. *)
Lemma demo_login_survives_reload_witness :
  demoUsers configured !! "gymnast@demo.com" = Some (demoGymnast configured)
  /\ user (state (final (run mount
       (fresh (localStorage (final (run (login configured "gymnast@demo.com" "demo123")
                                      (fresh ∅ empty_backend))))
          empty_backend))))
     = toJS (demoGymnast configured).
Proof.
  assert (Hg : demoUsers configured !! "gymnast@demo.com"
               = Some (demoGymnast configured)) by reflexivity.
  split; [exact Hg |].
  exact (proj1 (demo_login_survives_reload configured "gymnast@demo.com"
                  (demoGymnast configured) (fresh ∅ empty_backend) empty_backend Hg)).
Defined.

(** X6 with a name that needs escaping. *)
Lemma unconfigured_signUp_survives_reload_witness :
  isSupabaseConfigured unconfigured = false
  /\ prop "first_name" (user (state (final (run mount
       (fresh (localStorage (final (run (signUp unconfigured "a@x.com" "pw"
                                           awkward_name "Lee")
                                      (fresh ∅ same_instant_backend))))
          empty_backend)))))
     = Some (JStr awkward_name).
Proof.
  split; [reflexivity |].
  rewrite (proj1 (unconfigured_signUp_survives_reload unconfigured "a@x.com" "pw"
                    awkward_name "Lee" (fresh ∅ same_instant_backend)
                    empty_backend eq_refl)).
  vm_compute. reflexivity.
Defined.

(** X8 on the in-memory provider: the member signs in. *)
Lemma login_success_defers_to_handler_witness :
  isSupabaseConfigured configured = true
  /\ outcome (run (login configured "real@x.com" "secret") (fresh ∅ member_backend))
     = Returned tt
  /\ state (final (run (login configured "real@x.com" "secret")
                     (fresh ∅ member_backend)))
     = {| user := JNull; authUser := None; isLoading := true; error := None |}.
Proof.
  pose (a := respond (SignIn "real@x.com" "secret") member_backend).
  split; [reflexivity |].
  rewrite (login_success_defers_to_handler configured "real@x.com" "secret"
             (fresh ∅ member_backend) (fst a) (snd a)
             eq_refl eq_refl eq_refl eq_refl).
  split; reflexivity.
Defined.

(** X9 on the in-memory provider with an empty table: all three calls. *)
Lemma signUp_call_discipline_witness :
  isSupabaseConfigured configured = true
  /\ length (network (events (run (signUp configured "new@x.com" "pw" "A" "B")
                                (fresh ∅ empty_backend)))) = 3.
Proof.
  split; [reflexivity |].
  destruct (signUp_call_discipline configured "new@x.com" "pw" "A" "B"
              (fresh ∅ empty_backend) eq_refl)
    as [[Hn _] | [[u [Hn _]] | [u [Hn _]]]];
    [vm_compute in Hn; discriminate Hn | vm_compute in Hn; discriminate Hn |].
  rewrite Hn. reflexivity.
Defined.

(** X10 on the provider that answers with neither data nor error. *)
Lemma signUp_without_user_id_witness :
  isSupabaseConfigured configured = true
  /\ outcome (run (signUp configured "new@x.com" "pw" "A" "B") (fresh ∅ quiet))
     = Threw (JsError "Sign up succeeded but no user ID returned")
  /\ network (events (run (signUp configured "new@x.com" "pw" "A" "B")
                        (fresh ∅ quiet)))
     = [ Called (SupabaseSignUp "new@x.com" "pw" (signUp_meta "new@x.com" "A" "B"))
           (Reply.Build None None) ].
Proof.
  split; [reflexivity |].
  rewrite (signUp_without_user_id configured "new@x.com" "pw" "A" "B"
             (fresh ∅ quiet) (Reply.Build None None) quiet
             eq_refl eq_refl eq_refl eq_refl).
  split; reflexivity.
Defined.

(** X11 on the in-memory provider: a slot left from a demo session, then the
    member signs in; two sign-outs and a notification later the component
    is still loading. *)
Lemma loading_never_ends_without_subscription_witness :
  let w1 := final (run (login configured "real@x.com" "secret")
                     (final (run mount
                               (fresh {[ "demoUser" := "{}" ]} member_backend)))) in
  isLoading (state w1) = true
  /\ isLoading (state (play configured
                         [ Logout;
                           Notify "SIGNED_OUT" None;
                           Logout ] w1)) = true.
Proof.
  pose (a := respond (SignIn "real@x.com" "secret") member_backend).
  assert (Hslot : ({[ "demoUser" := "{}" ]} : gmap string string) !! "demoUser"
                  = Some "{}") by apply lookup_singleton_eq.
  assert (Hparse : JSON_parse "{}" = Some (JObj [])) by (vm_compute; reflexivity).
  destruct (loading_never_ends_without_subscription configured "{}" (JObj [])
              {[ "demoUser" := "{}" ]} member_backend (snd a)
              "real@x.com" "secret" (fst a)
              Hslot Hparse eq_refl eq_refl eq_refl eq_refl) as [_ [Hload Hstay]].
  split; [exact Hload |].
  apply Hstay. repeat constructor.
Defined.

(** X13 for the league administrator of the demo catalogue, who has no gym:
    two refetches against a database that has a gymnast leave the hook as it
    started. *)
Lemma fetchGymnasts_without_gym_witness :
  truthy (Profile.gym_id (demoAdmin configured)) = false
  /\ fold_left (fun s db => Hooks.fetchGymnasts (Profile.gym_id (demoAdmin configured)) db s)
       [ (fun _ => Hooks.Rows (Some [ member ]));
         (fun _ => Hooks.Rows (Some [ member ])) ]
       Hooks.initial
     = Hooks.initial.
Proof.
  split; [reflexivity |].
  exact (proj1 (fetchGymnasts_without_gym (Profile.gym_id (demoAdmin configured))
                  [ (fun _ => Hooks.Rows (Some [ member ]));
                    (fun _ => Hooks.Rows (Some [ member ])) ]
                  Hooks.initial eq_refl)).
Defined.
